(** * GPU telemetry monitor (main.cpp): shallow embedding and properties

    The program polls NVML for per-device telemetry and redraws a table.
    Member functions are embedded as statements over the object they act
    on; every call into NVML, every [printf] and every sleep is recorded
    in a trace, and the answers of NVML, of the clock and of the platform
    come from an environment record the program cannot inspect. *)

From Stdlib Require Import ZArith List String Ascii Bool Arith Lia.
From Stdlib Require Import DecimalString.
Import ListNotations.
Local Open Scope Z_scope.

(** ** Machine integers *)

(** [unsigned]: 32 bits, wrap-around on conversion. *)
Definition to_unsigned (z : Z) : Z := z mod 2 ^ 32.

(** [unsigned long long]: 64 bits. *)
Definition to_ull (z : Z) : Z := z mod 2 ^ 64.

(** [int]: 32 bits, two's complement. *)
Definition to_int (z : Z) : Z := (z + 2 ^ 31) mod 2 ^ 32 - 2 ^ 31.

Definition INT_MAX : Z := 2 ^ 31 - 1.

(** ** The part of nvml.h the program uses *)

(** [nvmlReturn_t] is an enum; the program compares it with [NVML_SUCCESS]
    and returns it as an [int].  The enumerators carry the values of
    NVIDIA's header. *)
Definition nvmlReturn_t := Z.
Definition NVML_SUCCESS : nvmlReturn_t := 0.
Definition NVML_ERROR_NOT_SUPPORTED : nvmlReturn_t := 3.
Definition NVML_ERROR_NO_PERMISSION : nvmlReturn_t := 4.
Definition NVML_ERROR_DRIVER_NOT_LOADED : nvmlReturn_t := 9.
Definition NVML_ERROR_UNKNOWN : nvmlReturn_t := 999.

(** [nvmlDriverModel_t]; [NVML_DRIVER_WDDM] is the enumerator of value 0,
    so it is what a zeroed field holds. *)
Inductive nvmlDriverModel_t := NVML_DRIVER_WDDM | NVML_DRIVER_WDM.

(** [nvmlDevice_t] is an opaque pointer; 0 is the null handle. *)
Definition nvmlDevice_t := Z.

Record nvmlUtilization_t := mkUtilization {
  gpu : Z;          (* unsigned int gpu *)
  util_memory : Z   (* unsigned int memory *)
}.

Record nvmlMemory_t := mkMemory {
  total : Z;        (* unsigned long long, bytes *)
  free : Z;
  used : Z
}.

(** ** struct GPUDevice *)

Record GPUDevice := mkGPUDevice {
  index : Z;
  name : string;
  fanSpeed : Z;
  power : Z;
  temperature : Z;
  utilization : nvmlUtilization_t;
  dmCurrent : nvmlDriverModel_t;
  dmPending : nvmlDriverModel_t;
  memory : nvmlMemory_t;
  handle : nvmlDevice_t
}.

(** Field assignments, one per field the program writes. *)
Definition set_index (v : Z) (d : GPUDevice) : GPUDevice :=
  mkGPUDevice v (name d) (fanSpeed d) (power d) (temperature d) (utilization d)
              (dmCurrent d) (dmPending d) (memory d) (handle d).
Definition set_name (v : string) (d : GPUDevice) : GPUDevice :=
  mkGPUDevice (index d) v (fanSpeed d) (power d) (temperature d) (utilization d)
              (dmCurrent d) (dmPending d) (memory d) (handle d).
Definition set_fanSpeed (v : Z) (d : GPUDevice) : GPUDevice :=
  mkGPUDevice (index d) (name d) v (power d) (temperature d) (utilization d)
              (dmCurrent d) (dmPending d) (memory d) (handle d).
Definition set_power (v : Z) (d : GPUDevice) : GPUDevice :=
  mkGPUDevice (index d) (name d) (fanSpeed d) v (temperature d) (utilization d)
              (dmCurrent d) (dmPending d) (memory d) (handle d).
Definition set_temperature (v : Z) (d : GPUDevice) : GPUDevice :=
  mkGPUDevice (index d) (name d) (fanSpeed d) (power d) v (utilization d)
              (dmCurrent d) (dmPending d) (memory d) (handle d).
Definition set_utilization (v : nvmlUtilization_t) (d : GPUDevice) : GPUDevice :=
  mkGPUDevice (index d) (name d) (fanSpeed d) (power d) (temperature d) v
              (dmCurrent d) (dmPending d) (memory d) (handle d).
Definition set_driverModel (c p : nvmlDriverModel_t) (d : GPUDevice) : GPUDevice :=
  mkGPUDevice (index d) (name d) (fanSpeed d) (power d) (temperature d) (utilization d)
              c p (memory d) (handle d).
Definition set_memory (v : nvmlMemory_t) (d : GPUDevice) : GPUDevice :=
  mkGPUDevice (index d) (name d) (fanSpeed d) (power d) (temperature d) (utilization d)
              (dmCurrent d) (dmPending d) v (handle d).
Definition set_handle (v : nvmlDevice_t) (d : GPUDevice) : GPUDevice :=
  mkGPUDevice (index d) (name d) (fanSpeed d) (power d) (temperature d) (utilization d)
              (dmCurrent d) (dmPending d) (memory d) v.

(** [GPUDevice::GPUDevice()]: [memset(this, 0, sizeof(GPUDevice))].  Every
    field is zero; the zeroed [std::string] is taken to be the empty
    string.  That is an assumption: zeroing a [std::string] is undefined,
    and a library whose zeroed string has a null data pointer fails on
    assigning it an empty text and prints the zeroed name differently.
    Statements about the stored or printed name are therefore made for a
    non-empty queried text and for a name that has been assigned. *)
Definition GPUDevice_new : GPUDevice :=
  mkGPUDevice 0 EmptyString 0 0 0 (mkUtilization 0 0)
              NVML_DRIVER_WDDM NVML_DRIVER_WDDM (mkMemory 0 0 0) 0.

(** ** struct DeviceManager *)

Record DeviceManager := mkDeviceManager {
  driverVersion : string;
  numDevices : Z;
  devices : list GPUDevice;
  valid : bool
}.

Definition set_driverVersion (v : string) (m : DeviceManager) : DeviceManager :=
  mkDeviceManager v (numDevices m) (devices m) (valid m).
Definition set_numDevices (v : Z) (m : DeviceManager) : DeviceManager :=
  mkDeviceManager (driverVersion m) v (devices m) (valid m).
Definition set_devices (v : list GPUDevice) (m : DeviceManager) : DeviceManager :=
  mkDeviceManager (driverVersion m) (numDevices m) v (valid m).
Definition set_valid (v : bool) (m : DeviceManager) : DeviceManager :=
  mkDeviceManager (driverVersion m) (numDevices m) (devices m) v.

Definition isValid (m : DeviceManager) : bool := valid m.

(** ** printf conversions *)

Definition cat (parts : list string) : string := String.concat EmptyString parts.

Definition nl : string := String (ascii_of_nat 10) EmptyString.

Fixpoint spaces (n : nat) : string :=
  match n with
  | O => EmptyString
  | S k => String " "%char (spaces k)
  end.

(** [%d].  Every argument the program passes to [%d] is read as an [int];
    the low 32 bits of an unsigned or 64-bit argument are what is
    printed. *)
Definition fmt_d (v : Z) : string := NilZero.string_of_int (Z.to_int (to_int v)).

(** [%Nd]: right-justified in [width] columns, never truncated. *)
Definition fmt_wd (width : nat) (v : Z) : string :=
  let s := fmt_d v in
  String.append (spaces (width - String.length s)) s.

(** [snprintf(buf, size, ...)] keeps at most [size - 1] characters. *)
Definition snprintf (size : nat) (text : string) : string :=
  String.substring 0 (size - 1) text.

(** ** Observable behaviour *)

(** A moment identifies one visit of one device: the refresh cycle (0 is
    construction, [k] the [k]-th turn of the loop in [main]) and the
    position of the device in [devices]. *)
Record Moment := mkMoment { cycle : nat; slot : nat }.

Inductive SystemQuery := GetDriverVersion | GetCount.

Inductive DeviceQuery :=
| GetHandleByIndex | GetName | GetDriverModel
| GetFanSpeed | GetMemoryInfo | GetPowerUsage | GetTemperature
| GetUtilizationRates.

Inductive Event :=
| Printf (text : string)
| SleepFor (ms : Z)
| CallInit (res : nvmlReturn_t)
| CallShutdown
| CallSystem (q : SystemQuery) (res : nvmlReturn_t)
| CallDevice (q : DeviceQuery) (now : Moment) (res : nvmlReturn_t).

Definition Trace := list Event.

(** ** Environment

    What NVML answers, what [ctime] prints, and the value a caller reads
    when an [int] function reaches its closing brace without [return]
    ([GPUDevice::update] has no [return] statement on its success path).
    Each answer is the returned status and the value written through the
    out-parameter; the program reads the value only when the status is
    [NVML_SUCCESS], so a failed call is modelled as leaving its
    out-parameter untouched. *)
Record Env := mkEnv {
  nvmlInit : nvmlReturn_t;
  nvmlSystemGetDriverVersion : nvmlReturn_t * string;
  nvmlDeviceGetCount : nvmlReturn_t * Z;
  nvmlDeviceGetHandleByIndex : Moment -> Z -> nvmlReturn_t * nvmlDevice_t;
  nvmlDeviceGetName : Moment -> nvmlDevice_t -> nvmlReturn_t * string;
  nvmlDeviceGetDriverModel :
    Moment -> nvmlDevice_t -> nvmlReturn_t * (nvmlDriverModel_t * nvmlDriverModel_t);
  nvmlDeviceGetFanSpeed : Moment -> nvmlDevice_t -> nvmlReturn_t * Z;
  nvmlDeviceGetMemoryInfo : Moment -> nvmlDevice_t -> nvmlReturn_t * nvmlMemory_t;
  nvmlDeviceGetPowerUsage : Moment -> nvmlDevice_t -> nvmlReturn_t * Z;
  nvmlDeviceGetTemperature : Moment -> nvmlDevice_t -> nvmlReturn_t * Z;
  nvmlDeviceGetUtilizationRates :
    Moment -> nvmlDevice_t -> nvmlReturn_t * nvmlUtilization_t;
  ctime_now : nat -> string;
  indeterminate : Moment -> Z
}.

(** ** Statements of a member function

    A statement runs on the object [this], may change it, emits events,
    and either falls through to the next statement or executes
    [return code;].  A body whose last statement falls through has reached
    the closing brace of its function. *)
Inductive Flow (A : Type) :=
| Next (a : A)
| Return (code : Z).
Arguments Next {A} a.
Arguments Return {A} code.

Definition Stmt (Obj A : Type) : Type := Obj -> Flow A * Obj * Trace.

Section Statements.
Context {Obj : Type}.

Definition ret {A} (a : A) : Stmt Obj A := fun this => (Next a, this, []).

Definition bind {A B} (m : Stmt Obj A) (f : A -> Stmt Obj B) : Stmt Obj B :=
  fun this =>
    match m this with
    | (Next a, this1, t1) =>
        let '(r, this2, t2) := f a this1 in (r, this2, t1 ++ t2)
    | (Return code, this1, t1) => (Return code, this1, t1)
    end.

Definition get : Stmt Obj Obj := fun this => (Next this, this, []).

Definition modify (f : Obj -> Obj) : Stmt Obj unit :=
  fun this => (Next tt, f this, []).

Definition emit (e : Event) : Stmt Obj unit := fun this => (Next tt, this, [e]).

Definition return_ {A} (code : Z) : Stmt Obj A := fun this => (Return code, this, []).

Definition printf (text : string) : Stmt Obj unit := emit (Printf text).

Definition when (b : bool) (m : Stmt Obj unit) : Stmt Obj unit :=
  if b then m else ret tt.

(** The value an [int]-typed call expression has for its caller: the
    returned code, or [junk] when the callee fell off its end. *)
Definition call_int (junk : Z) (m : Stmt Obj unit) : Stmt Obj Z :=
  fun this =>
    match m this with
    | (Return code, this1, t1) => (Next code, this1, t1)
    | (Next _, this1, t1) => (Next junk, this1, t1)
    end.
End Statements.

Declare Scope stmt_scope.
Delimit Scope stmt_scope with stmt.
Notation "x <- m ;; k" := (bind m (fun x => k))
  (at level 61, m at next level, right associativity) : stmt_scope.
Notation "m ;; k" := (bind m (fun _ => k))
  (at level 61, right associativity) : stmt_scope.
Local Open Scope stmt_scope.

(** The [checkError] macro, expanded at source line [line]. *)
Definition checkError_text (line : Z) (err : nvmlReturn_t) : string :=
  cat ["ERROR: An error has occurred on line "%string; fmt_d line;
       ". Error code: "%string; fmt_d err; ". Terminating!"%string; nl].

Definition checkError {Obj} (line : Z) (err : nvmlReturn_t) : Stmt Obj unit :=
  if negb (err =? NVML_SUCCESS) then
    printf (checkError_text line err);;
    emit CallShutdown;;
    return_ err
  else ret tt.

(** [res = nvmlXxx(..., &field)]: the call is recorded with its status and
    the out-parameter is stored when the call succeeded. *)
Definition nvml_call {Obj T} (call : nvmlReturn_t -> Event)
    (answer : nvmlReturn_t * T) (store : T -> Obj -> Obj) : Stmt Obj nvmlReturn_t :=
  emit (call (fst answer));;
  when (fst answer =? NVML_SUCCESS) (modify (store (snd answer)));;
  ret (fst answer).

(** The value of an [int]-typed call on another object, with the object
    and the events it leaves behind. *)
Definition eval_int {Obj} (junk : Z) (m : Stmt Obj unit) (o : Obj) : Z * Obj * Trace :=
  match m o with
  | (Return code, o1, t1) => (code, o1, t1)
  | (Next _, o1, t1) => (junk, o1, t1)
  end.

(** [for (auto &d : xs) body(d);] for a body without [break] or [return]. *)
Fixpoint for_each {Obj} (body : Stmt Obj unit) (xs : list Obj) : list Obj * Trace :=
  match xs with
  | [] => ([], [])
  | x :: rest =>
      let '(_, x1, t1) := body x in
      let '(rest1, t2) := for_each body rest in
      (x1 :: rest1, t1 ++ t2)
  end.

(** A loop over [devices], run inside a member function of DeviceManager. *)
Definition on_devices {A} (loop : list GPUDevice -> A * list GPUDevice * Trace)
  : Stmt DeviceManager A :=
  fun this =>
    let '(a, ds, t) := loop (devices this) in (Next a, set_devices ds this, t).

(** [std::vector::resize(n)] with default-constructed new elements. *)
Definition resize (n : nat) (ds : list GPUDevice) : list GPUDevice :=
  firstn n ds ++ repeat GPUDevice_new (n - List.length ds).

Definition GPU_NAME_TEXT_FIELD_SIZE : nat := 22.

(** [while (name.size() != GPU_NAME_TEXT_FIELD_SIZE) name.append(" ");]
    The loop is entered only below the field size, so that many turns are
    enough; [pad_loop_exit] shows the loop leaves through its test. *)
Fixpoint pad_loop (fuel : nat) (name : string) : string :=
  match fuel with
  | O => name
  | S fuel' =>
      if negb (String.length name =? GPU_NAME_TEXT_FIELD_SIZE)%nat
      then pad_loop fuel' (String.append name " ")
      else name
  end.

Section Program.
Variable env : Env.

(** *** GPUDevice::update (source lines 70-97)

    The body ends without [return].  Reaching the closing brace is
    undefined; it is modelled as falling through silently, the caller
    reading an indeterminate value.  A build that takes the brace to be
    unreachable runs the report of line 96 there instead (a message and
    a shutdown).  What is stated for every build is stated about the
    queries and the state of a completed refresh, or as a bound that
    further messages and shutdowns do not break; a count of the messages
    or shutdowns of a completed refresh is that of the silent reading. *)
Definition GPUDevice_update (now : Moment) : Stmt GPUDevice unit :=
  this <- get;;
  res <- nvml_call (CallDevice GetFanSpeed now)
           (nvmlDeviceGetFanSpeed env now (handle this))
           (fun v => set_fanSpeed (to_unsigned v));;
  res <- (if negb (res =? NVML_SUCCESS)
          then modify (set_fanSpeed (to_unsigned (-1)));; ret NVML_SUCCESS
          else ret res);;
  checkError 78 res;;
  res <- nvml_call (CallDevice GetMemoryInfo now)
           (nvmlDeviceGetMemoryInfo env now (handle this))
           (fun v => set_memory
                       (mkMemory (to_ull (total v)) (to_ull (free v)) (to_ull (used v))));;
  checkError 81 res;;
  res <- nvml_call (CallDevice GetPowerUsage now)
           (nvmlDeviceGetPowerUsage env now (handle this))
           (fun v => set_power (to_unsigned v));;
  res <- (if negb (res =? NVML_SUCCESS)
          then modify (set_power (to_unsigned (-1)));; ret NVML_SUCCESS
          else modify (fun d => set_power (power d / 1000) d);; ret res);;
  checkError 90 res;;
  res <- nvml_call (CallDevice GetTemperature now)
           (nvmlDeviceGetTemperature env now (handle this))
           (fun v => set_temperature (to_unsigned v));;
  checkError 93 res;;
  res <- nvml_call (CallDevice GetUtilizationRates now)
           (nvmlDeviceGetUtilizationRates env now (handle this))
           (fun v => set_utilization
                       (mkUtilization (to_unsigned (gpu v)) (to_unsigned (util_memory v))));;
  checkError 96 res.
  (* closing brace: no return statement *)

(** *** GPUDevice::init (source lines 44-68) *)
Definition GPUDevice_init (now : Moment) : Stmt GPUDevice unit :=
  this <- get;;
  res <- nvml_call (CallDevice GetHandleByIndex now)
           (nvmlDeviceGetHandleByIndex env now (index this)) set_handle;;
  checkError 47 res;;
  this <- get;;
  let temp := nvmlDeviceGetName env now (handle this) in
  res <- nvml_call (CallDevice GetName now) temp (fun _ d => d);;
  checkError 50 res;;
  modify (set_name (snd temp));;
  this <- get;;
  when (negb (String.length (name this) =? GPU_NAME_TEXT_FIELD_SIZE)%nat)
    (when (String.length (name this) <? GPU_NAME_TEXT_FIELD_SIZE)%nat
       (modify (set_name (pad_loop GPU_NAME_TEXT_FIELD_SIZE (name this)))));;
  res <- nvml_call (CallDevice GetDriverModel now)
           (nvmlDeviceGetDriverModel env now (handle this))
           (fun v => set_driverModel (fst v) (snd v));;
  when (negb (res =? NVML_SUCCESS))
    (printf (cat ["init"%string; "["%string; fmt_d 65;
                  "] ERROR: Could not obtain Driver Model"%string; nl]));;
  r <- call_int (indeterminate env now) (GPUDevice_update now);;
  return_ r.

(** *** GPUDevice::print (source lines 181-202) *)
Definition GPUDevice_print : Stmt GPUDevice unit :=
  this <- get;;
  let driverMode :=
    match dmCurrent this with
    | NVML_DRIVER_WDDM => "WDDM"%string
    | _ => "TCC "%string
    end in
  let fan :=
    if negb (fanSpeed this =? to_unsigned (-1))
    then snprintf 10 (cat [" "%string; fmt_wd 3 (fanSpeed this); "%"%string])
    else snprintf 10 " N/A "%string in
  let pow :=
    if negb (power this =? to_unsigned (-1))
    then snprintf 10 (cat [" "%string; fmt_wd 3 (power this); "W"%string])
    else snprintf 10 " N/A "%string in
  printf (cat ["| "%string; fmt_wd 2 (index this); " "%string; name this;
               "  "%string; driverMode; " | "%string;
               fmt_wd 5 (used (memory this) / (1024 * 1024)); " / "%string;
               fmt_wd 5 (total (memory this) / (1024 * 1024)); " | "%string;
               fmt_wd 3 (temperature this); "C "%string; fan; "   "%string;
               pow; "   "%string; fmt_wd 3 (gpu (utilization this));
               "% |"%string; nl]).

(** *** DeviceManager::init (source lines 114-140)

    The loop [for (int i = 0; i < numDevices; i++)] visits the
    [numDevices] elements [resize] has just created, in order; the
    counter is stored in the [int] field [index]. *)
Fixpoint init_loop (i : nat) (ds : list GPUDevice) : unit * list GPUDevice * Trace :=
  match ds with
  | [] => (tt, [], [])
  | d :: rest =>
      let now := mkMoment 0 i in
      let '(_, d1, t1) :=
        eval_int (indeterminate env now) (GPUDevice_init now)
                 (set_index (to_int (Z.of_nat i)) d) in
      let '(_, rest1, t2) := init_loop (S i) rest in
      (tt, d1 :: rest1, t1 ++ t2)
  end.

Definition DeviceManager_init : Stmt DeviceManager unit :=
  let err := nvmlInit env in
  emit (CallInit err);;
  (if err =? NVML_ERROR_DRIVER_NOT_LOADED then
     printf (cat ["ERROR: NVidia driver is not running. Initialization failed."%string; nl])
   else if err =? NVML_ERROR_NO_PERMISSION then
     printf (cat ["ERROR: NVML does not have permission to talk to the driver. Initialization failed."%string; nl])
   else if err =? NVML_ERROR_UNKNOWN then
     printf (cat ["ERROR: NVML encounted an unexpected error during initialization. Initialization failed."%string; nl])
   else if err =? NVML_SUCCESS then
     let temp := nvmlSystemGetDriverVersion env in
     err <- nvml_call (CallSystem GetDriverVersion) temp (fun _ m => m);;
     checkError 126 err;;
     modify (set_driverVersion (snd temp));;
     err <- nvml_call (CallSystem GetCount) (nvmlDeviceGetCount env)
              (fun v => set_numDevices (to_unsigned v));;
     checkError 130 err;;
     this <- get;;
     modify (set_devices (resize (Z.to_nat (numDevices this)) (devices this)));;
     on_devices (init_loop 0)
   else ret tt);;
  return_ 0.

(** *** DeviceManager::DeviceManager (source lines 141-149)

    [init] leaves through a [return] statement on every path
    ([DeviceManager_init_returns]), so no indeterminate value is read
    here. *)
Definition DeviceManager_new : DeviceManager * Trace :=
  let this := mkDeviceManager "Unknown" 0 [] false in
  let '(r, this1, t1) := eval_int 0 DeviceManager_init this in
  (if 0 =? r then set_valid true this1 else this1, t1).

(** *** DeviceManager::~DeviceManager (source lines 151-154) *)
Definition DeviceManager_delete : Stmt DeviceManager unit :=
  emit CallShutdown.

(** *** DeviceManager::update (source lines 156-164)

    The loop result tells whether the loop was left through [break]. *)
Fixpoint update_loop (c i : nat) (ds : list GPUDevice) : bool * list GPUDevice * Trace :=
  match ds with
  | [] => (false, [], [])
  | d :: rest =>
      let now := mkMoment c i in
      let '(r, d1, t1) := eval_int (indeterminate env now) (GPUDevice_update now) d in
      if negb (r =? 0) then (true, d1 :: rest, t1)
      else
        let '(broke, rest1, t2) := update_loop c (S i) rest in
        (broke, d1 :: rest1, t1 ++ t2)
  end.

Definition DeviceManager_update (c : nat) : Stmt DeviceManager unit :=
  broke <- on_devices (update_loop c 0);;
  when broke (modify (set_valid false));;
  this <- get;;
  return_ (if negb (valid this) then 1 else 0).

(** *** DeviceManager::print (source lines 166-179); [hrTime] is what
    [ctime] gives for the current time. *)
Definition DeviceManager_print (hrTime : string) : Stmt DeviceManager unit :=
  printf hrTime;;
  printf (cat ["+-----------------------------------------------------------------------------+"%string; nl]);;
  this <- get;;
  printf (cat ["|             NVidia driver version: "%string; driverVersion this;
               "       Device count : "%string; fmt_wd 2 (numDevices this);
               "           |"%string; nl]);;
  printf (cat ["|---------------------------------+---------------+---------------------------+"%string; nl]);;
  printf (cat ["| Idx    Name            TCC/WDDM | Memory-usage  | Temp   Fan   Power  Util  |"%string; nl]);;
  printf (cat ["+-----------------------------------------------------------------------------+"%string; nl]);;
  on_devices (fun ds => let '(ds1, t) := for_each GPUDevice_print ds in (tt, ds1, t));;
  printf (cat ["+-----------------------------------------------------------------------------+"%string; nl]).

(** *** moveCursorTo, the branch compiled without _WIN32 *)
Definition moveCursorTo {Obj} (x y : Z) : Stmt Obj unit :=
  printf (cat [String (ascii_of_nat 27) "["%string; fmt_d (y + 1); ";"%string;
               fmt_d (x + 1); "H"%string]).

(** *** main (source lines 231-240)

    One turn of the loop, then the loop with a bound on the number of
    turns: the result says whether the loop was left ([isValid] false)
    within the bound. *)
Definition main_turn (c : nat) : Stmt DeviceManager unit :=
  moveCursorTo 0 0;;
  DeviceManager_print (ctime_now env c);;
  emit (SleepFor 500);;
  _ <- call_int 0 (DeviceManager_update c);;
  ret tt.

Fixpoint main_loop (fuel c : nat) (devMan : DeviceManager) : bool * DeviceManager * Trace :=
  if isValid devMan then
    match fuel with
    | O => (false, devMan, [])
    | S fuel' =>
        let '(_, devMan1, t1) := main_turn c devMan in
        let '(done, devMan2, t2) := main_loop fuel' (S c) devMan1 in
        (done, devMan2, t1 ++ t2)
    end
  else (true, devMan, []).

(** The exit status ([None] while the loop is still running after [fuel]
    turns), the registry as the loop left it, and the trace of the run;
    [return 0] is followed by the destructor of [devMan]. *)
Definition main (fuel : nat) : option Z * DeviceManager * Trace :=
  let '(devMan, t0) := DeviceManager_new in
  let '(done, devMan1, t1) := main_loop fuel 1 devMan in
  if done then
    let '(_, devMan2, t2) := DeviceManager_delete devMan1 in
    (Some 0, devMan2, t0 ++ t1 ++ t2)
  else (None, devMan1, t0 ++ t1).
End Program.

(** ** Sample environments

    A healthy machine with two devices, and variations of it in which one
    answer fails; they are used to run the program on concrete inputs. *)
Module Samples.
Definition stamp (seconds : Z) : string :=
  cat ["Thu Jan  1 00:00:0"%string; fmt_d seconds; " 1970"%string; nl].

Definition healthy : Env :=
  {| nvmlInit := NVML_SUCCESS;
     nvmlSystemGetDriverVersion := (NVML_SUCCESS, "535.54"%string);
     nvmlDeviceGetCount := (NVML_SUCCESS, 2);
     nvmlDeviceGetHandleByIndex := fun _ i => (NVML_SUCCESS, 4096 + i);
     nvmlDeviceGetName := fun _ _ => (NVML_SUCCESS, "GeForce GTX 1080"%string);
     nvmlDeviceGetDriverModel :=
       fun _ _ => (NVML_SUCCESS, (NVML_DRIVER_WDDM, NVML_DRIVER_WDDM));
     nvmlDeviceGetFanSpeed := fun _ _ => (NVML_SUCCESS, 40);
     nvmlDeviceGetMemoryInfo :=
       fun _ _ => (NVML_SUCCESS, mkMemory 8589934592 6442450944 2147483648);
     nvmlDeviceGetPowerUsage := fun _ _ => (NVML_SUCCESS, 15999);
     nvmlDeviceGetTemperature := fun _ _ => (NVML_SUCCESS, 65);
     nvmlDeviceGetUtilizationRates :=
       fun _ _ => (NVML_SUCCESS, mkUtilization 37 12);
     ctime_now := fun c => stamp (Z.of_nat c);
     indeterminate := fun _ => 0 |}.

Definition with_nvmlInit (res : nvmlReturn_t) (e : Env) : Env :=
  mkEnv res (nvmlSystemGetDriverVersion e) (nvmlDeviceGetCount e)
        (nvmlDeviceGetHandleByIndex e) (nvmlDeviceGetName e)
        (nvmlDeviceGetDriverModel e) (nvmlDeviceGetFanSpeed e)
        (nvmlDeviceGetMemoryInfo e) (nvmlDeviceGetPowerUsage e)
        (nvmlDeviceGetTemperature e) (nvmlDeviceGetUtilizationRates e)
        (ctime_now e) (indeterminate e).

Definition with_count (answer : nvmlReturn_t * Z) (e : Env) : Env :=
  mkEnv (nvmlInit e) (nvmlSystemGetDriverVersion e) answer
        (nvmlDeviceGetHandleByIndex e) (nvmlDeviceGetName e)
        (nvmlDeviceGetDriverModel e) (nvmlDeviceGetFanSpeed e)
        (nvmlDeviceGetMemoryInfo e) (nvmlDeviceGetPowerUsage e)
        (nvmlDeviceGetTemperature e) (nvmlDeviceGetUtilizationRates e)
        (ctime_now e) (indeterminate e).

Definition with_handle (f : Moment -> Z -> nvmlReturn_t * nvmlDevice_t) (e : Env) : Env :=
  mkEnv (nvmlInit e) (nvmlSystemGetDriverVersion e) (nvmlDeviceGetCount e)
        f (nvmlDeviceGetName e)
        (nvmlDeviceGetDriverModel e) (nvmlDeviceGetFanSpeed e)
        (nvmlDeviceGetMemoryInfo e) (nvmlDeviceGetPowerUsage e)
        (nvmlDeviceGetTemperature e) (nvmlDeviceGetUtilizationRates e)
        (ctime_now e) (indeterminate e).

Definition with_fanSpeed (f : Moment -> nvmlDevice_t -> nvmlReturn_t * Z) (e : Env) : Env :=
  mkEnv (nvmlInit e) (nvmlSystemGetDriverVersion e) (nvmlDeviceGetCount e)
        (nvmlDeviceGetHandleByIndex e) (nvmlDeviceGetName e)
        (nvmlDeviceGetDriverModel e) f
        (nvmlDeviceGetMemoryInfo e) (nvmlDeviceGetPowerUsage e)
        (nvmlDeviceGetTemperature e) (nvmlDeviceGetUtilizationRates e)
        (ctime_now e) (indeterminate e).

Definition with_temperature (f : Moment -> nvmlDevice_t -> nvmlReturn_t * Z) (e : Env) : Env :=
  mkEnv (nvmlInit e) (nvmlSystemGetDriverVersion e) (nvmlDeviceGetCount e)
        (nvmlDeviceGetHandleByIndex e) (nvmlDeviceGetName e)
        (nvmlDeviceGetDriverModel e) (nvmlDeviceGetFanSpeed e)
        (nvmlDeviceGetMemoryInfo e) (nvmlDeviceGetPowerUsage e)
        f (nvmlDeviceGetUtilizationRates e)
        (ctime_now e) (indeterminate e).

Definition with_powerUsage (f : Moment -> nvmlDevice_t -> nvmlReturn_t * Z) (e : Env) : Env :=
  mkEnv (nvmlInit e) (nvmlSystemGetDriverVersion e) (nvmlDeviceGetCount e)
        (nvmlDeviceGetHandleByIndex e) (nvmlDeviceGetName e)
        (nvmlDeviceGetDriverModel e) (nvmlDeviceGetFanSpeed e)
        (nvmlDeviceGetMemoryInfo e) f
        (nvmlDeviceGetTemperature e) (nvmlDeviceGetUtilizationRates e)
        (ctime_now e) (indeterminate e).

Definition with_name (f : Moment -> nvmlDevice_t -> nvmlReturn_t * string) (e : Env) : Env :=
  mkEnv (nvmlInit e) (nvmlSystemGetDriverVersion e) (nvmlDeviceGetCount e)
        (nvmlDeviceGetHandleByIndex e) f
        (nvmlDeviceGetDriverModel e) (nvmlDeviceGetFanSpeed e)
        (nvmlDeviceGetMemoryInfo e) (nvmlDeviceGetPowerUsage e)
        (nvmlDeviceGetTemperature e) (nvmlDeviceGetUtilizationRates e)
        (ctime_now e) (indeterminate e).

(** The driver is not running. *)
Definition no_driver : Env := with_nvmlInit NVML_ERROR_DRIVER_NOT_LOADED healthy.

(** No device reports a fan speed. *)
Definition no_fan : Env :=
  with_fanSpeed (fun _ _ => (NVML_ERROR_NOT_SUPPORTED, 0)) healthy.

(** The temperature sensor of device 0 fails in the second cycle. *)
Definition hot : Env :=
  with_temperature
    (fun now _ =>
       if ((cycle now =? 2) && (slot now =? 0))%nat then (NVML_ERROR_UNKNOWN, 0)
       else (NVML_SUCCESS, 65))
    healthy.

(** The handle of device 1 cannot be resolved. *)
Definition lost_device : Env :=
  with_handle (fun _ i => if i =? 1 then (NVML_ERROR_UNKNOWN, 0) else (NVML_SUCCESS, 4096 + i))
    healthy.

(** The devices draw 15000 milliwatts. *)
Definition round_power : Env :=
  with_powerUsage (fun _ _ => (NVML_SUCCESS, 15000)) healthy.

(** A device whose name is longer than the name column. *)
Definition long_name : Env :=
  with_name (fun _ _ => (NVML_SUCCESS, "NVIDIA GeForce RTX 4090 Laptop GPU"%string))
    healthy.

Definition with_driverVersion (answer : nvmlReturn_t * string) (e : Env) : Env :=
  mkEnv (nvmlInit e) answer (nvmlDeviceGetCount e)
        (nvmlDeviceGetHandleByIndex e) (nvmlDeviceGetName e)
        (nvmlDeviceGetDriverModel e) (nvmlDeviceGetFanSpeed e)
        (nvmlDeviceGetMemoryInfo e) (nvmlDeviceGetPowerUsage e)
        (nvmlDeviceGetTemperature e) (nvmlDeviceGetUtilizationRates e)
        (ctime_now e) (indeterminate e).

Definition with_driverModel
    (f : Moment -> nvmlDevice_t -> nvmlReturn_t * (nvmlDriverModel_t * nvmlDriverModel_t))
    (e : Env) : Env :=
  mkEnv (nvmlInit e) (nvmlSystemGetDriverVersion e) (nvmlDeviceGetCount e)
        (nvmlDeviceGetHandleByIndex e) (nvmlDeviceGetName e)
        f (nvmlDeviceGetFanSpeed e)
        (nvmlDeviceGetMemoryInfo e) (nvmlDeviceGetPowerUsage e)
        (nvmlDeviceGetTemperature e) (nvmlDeviceGetUtilizationRates e)
        (ctime_now e) (indeterminate e).

Definition with_memoryInfo
    (f : Moment -> nvmlDevice_t -> nvmlReturn_t * nvmlMemory_t) (e : Env) : Env :=
  mkEnv (nvmlInit e) (nvmlSystemGetDriverVersion e) (nvmlDeviceGetCount e)
        (nvmlDeviceGetHandleByIndex e) (nvmlDeviceGetName e)
        (nvmlDeviceGetDriverModel e) (nvmlDeviceGetFanSpeed e)
        f (nvmlDeviceGetPowerUsage e)
        (nvmlDeviceGetTemperature e) (nvmlDeviceGetUtilizationRates e)
        (ctime_now e) (indeterminate e).

(** The driver version cannot be read. *)
Definition no_version : Env :=
  with_driverVersion (NVML_ERROR_UNKNOWN, EmptyString) healthy.

(** No device has a name. *)
Definition no_name : Env :=
  with_name (fun _ _ => (NVML_ERROR_UNKNOWN, EmptyString)) healthy.

(** A platform without driver models (the query is not supported). *)
Definition no_driver_model : Env :=
  with_driverModel
    (fun _ _ => (NVML_ERROR_NOT_SUPPORTED, (NVML_DRIVER_WDM, NVML_DRIVER_WDM)))
    healthy.

(** The memory of no device can be read. *)
Definition no_memory : Env :=
  with_memoryInfo (fun _ _ => (NVML_ERROR_UNKNOWN, mkMemory 0 0 0)) healthy.

(** No device reports its power draw. *)
Definition no_power : Env :=
  with_powerUsage (fun _ _ => (NVML_ERROR_NOT_SUPPORTED, 0)) healthy.

(** The registry of the healthy machine, and its first device. *)
Definition registry : DeviceManager := fst (DeviceManager_new healthy).
Definition gpu0 : GPUDevice := nth 0 (devices registry) GPUDevice_new.
End Samples.

(** ** Reading the result of a run *)

Definition flow_of {F O : Type} (r : F * O * Trace) : F := let '(f, _, _) := r in f.
Definition obj_of {F O : Type} (r : F * O * Trace) : O := let '(_, o, _) := r in o.
Definition trace_of {F O : Type} (r : F * O * Trace) : Trace := let '(_, _, t) := r in t.

(** The bytes written to standard output. *)
Fixpoint stdout (t : Trace) : string :=
  match t with
  | [] => EmptyString
  | Printf text :: rest => String.append text (stdout rest)
  | _ :: rest => stdout rest
  end.

Definition is_printf (e : Event) : bool :=
  match e with Printf _ => true | _ => false end.

Definition is_shutdown (e : Event) : bool :=
  match e with CallShutdown => true | _ => false end.

(** The queries whose status goes through [checkError]. *)
Definition required (q : DeviceQuery) : bool :=
  match q with
  | GetDriverModel | GetFanSpeed | GetPowerUsage => false
  | _ => true
  end.

(** A fatal provider error: a failed call whose status reaches
    [checkError]. *)
Definition is_fatal (e : Event) : bool :=
  match e with
  | CallSystem _ res => negb (res =? NVML_SUCCESS)
  | CallDevice q _ res => required q && negb (res =? NVML_SUCCESS)
  | _ => false
  end.

Definition count (p : Event -> bool) (t : Trace) : nat := List.length (filter p t).

(** The registry after construction and [n] refresh cycles. *)
Fixpoint refreshed (env : Env) (n : nat) (devMan : DeviceManager) : DeviceManager :=
  match n with
  | O => devMan
  | S k => obj_of (DeviceManager_update env (S k) (refreshed env k devMan))
  end.

(** A trace of [printf] calls only: no call into NVML, no sleep. *)
Definition all_printf (t : Trace) : Prop := Forall (fun e => is_printf e = true) t.

(** What a refresh leaves alone in a device. *)
Definition same_identity (d d' : GPUDevice) : Prop :=
  index d' = index d /\ name d' = name d /\ handle d' = handle d /\
  dmCurrent d' = dmCurrent d /\ dmPending d' = dmPending d.

(** What [DeviceManager::print] writes after the time stamp. *)
Definition table (devMan : DeviceManager) : Trace :=
  tl (trace_of (DeviceManager_print EmptyString devMan)).

(** The name field [init] stores for the text [temp] NVML wrote. *)
Definition padded (temp : string) : string :=
  String.append temp (spaces (GPU_NAME_TEXT_FIELD_SIZE - String.length temp)).

(** The calls that ask NVML about a device. *)
Definition is_query (e : Event) : bool :=
  match e with CallDevice _ _ _ => true | _ => false end.

(** The five queries of a refresh. *)
Definition is_metric (q : DeviceQuery) : bool :=
  match q with
  | GetFanSpeed | GetMemoryInfo | GetPowerUsage | GetTemperature
  | GetUtilizationRates => true
  | _ => false
  end.

(** What the program does once the registry is constructed: it prints,
    sleeps, asks for metrics and shuts the subsystem down. *)
Definition refresh_event (e : Event) : Prop :=
  match e with
  | Printf _ | SleepFor _ | CallShutdown => True
  | CallDevice q _ _ => is_metric q = true
  | CallInit _ | CallSystem _ _ => False
  end.

(** What a device does while it is initialized at moment [now]. *)
Definition device_event (now : Moment) (e : Event) : Prop :=
  match e with
  | Printf _ | CallShutdown => True
  | CallDevice _ m _ => m = now
  | SleepFor _ | CallInit _ | CallSystem _ _ => False
  end.

(** What the constructor does after [nvmlInit]: it never initializes
    again and never sleeps, and every device query belongs to cycle 0. *)
Definition construction_event (e : Event) : Prop :=
  match e with
  | Printf _ | CallShutdown | CallSystem _ _ => True
  | CallDevice _ m _ => cycle m = 0%nat
  | SleepFor _ | CallInit _ => False
  end.

(** The text of the warning [GPUDevice::init] prints at source line 65. *)
Definition driver_model_warning : string :=
  cat ["init"%string; "["%string; fmt_d 65;
       "] ERROR: Could not obtain Driver Model"%string; nl].

(** [fits_from width v n]: the decimal text of each of the [n] integers
    from [v] on has at most [width] characters. *)
Fixpoint fits_from (width : nat) (v : Z) (n : nat) : bool :=
  match n with
  | O => true
  | S k =>
      if (String.length (fmt_d v) <=? width)%nat
      then fits_from width (v + 1) k
      else false
  end.

(** * Properties *)

(** ** Symbolic execution of statements *)

Arguments cat : simpl never.
Arguments checkError_text : simpl never.
Arguments fmt_d : simpl never.
Arguments fmt_wd : simpl never.
Arguments to_unsigned : simpl never.
Arguments to_ull : simpl never.
Arguments to_int : simpl never.

(** One step: unfold the statement combinators and reduce what is
    decided. *)
Ltac step_stmt :=
  lazy beta iota zeta delta
    [flow_of obj_of trace_of eval_int call_int checkError nvml_call
     printf when bind ret get modify emit return_ on_devices negb];
  cbn [fst snd app
       index name fanSpeed power temperature utilization dmCurrent dmPending
       memory handle
       set_index set_name set_fanSpeed set_power set_temperature set_utilization
       set_driverModel set_memory set_handle
       driverVersion numDevices devices valid
       set_driverVersion set_numDevices set_devices set_valid].

(** Follow the statuses one test at a time, so that only the paths the
    code can take are visited. *)
Ltac follow_statuses :=
  repeat (step_stmt;
    match goal with
    | |- context [(NVML_SUCCESS =? NVML_SUCCESS)] =>
        change (NVML_SUCCESS =? NVML_SUCCESS) with true
    | H : (?r =? NVML_SUCCESS) = _ |- context [(?r =? NVML_SUCCESS)] => rewrite H
    | H : ?r = NVML_SUCCESS |- context [(?r =? NVML_SUCCESS)] =>
        rewrite H
    | H : ?r <> NVML_SUCCESS |- context [(?r =? NVML_SUCCESS)] =>
        rewrite (proj2 (Z.eqb_neq r NVML_SUCCESS) H)
    | |- context [(?r =? NVML_SUCCESS)] => destruct (r =? NVML_SUCCESS) eqn:?
    end);
  step_stmt.

Ltac run_update := unfold GPUDevice_update; follow_statuses.

Ltac run_init := unfold GPUDevice_init, GPUDevice_update; follow_statuses.

(** Read a fact about a run once the run is named. *)
Ltac read_run H :=
  cbv beta iota zeta delta [trace_of flow_of obj_of] in H; cbn [fst snd] in H.

(** A status that passed or failed its test, as an (in)equation. *)
Ltac read_statuses :=
  repeat match goal with
    | H : (_ =? NVML_SUCCESS) = true |- _ => apply Z.eqb_eq in H
    | H : (_ =? NVML_SUCCESS) = false |- _ => apply Z.eqb_neq in H
    end.

(** Split on the outcome [DeviceManager::init] tests [nvmlInit] for; in
    the three error branches the status is known. *)
Ltac split_nvmlInit env :=
  let E1 := fresh "E" in
  let E2 := fresh "E" in
  let E3 := fresh "E" in
  destruct (nvmlInit env =? NVML_ERROR_DRIVER_NOT_LOADED) eqn:E1;
  [ apply Z.eqb_eq in E1; rewrite ?E1;
    change (NVML_ERROR_DRIVER_NOT_LOADED =? NVML_SUCCESS) with false
  | destruct (nvmlInit env =? NVML_ERROR_NO_PERMISSION) eqn:E2;
    [ apply Z.eqb_eq in E2; rewrite ?E2;
      change (NVML_ERROR_NO_PERMISSION =? NVML_SUCCESS) with false
    | destruct (nvmlInit env =? NVML_ERROR_UNKNOWN) eqn:E3;
      [ apply Z.eqb_eq in E3; rewrite ?E3;
        change (NVML_ERROR_UNKNOWN =? NVML_SUCCESS) with false
      | ] ] ].

(** ** Trace measures *)

Lemma count_app p (t1 t2 : Trace) : count p (t1 ++ t2) = (count p t1 + count p t2)%nat.
Proof. unfold count. now rewrite filter_app, length_app. Qed.

Lemma count_cons p e (t : Trace) :
  count p (e :: t) = ((if p e then 1 else 0) + count p t)%nat.
Proof. unfold count. cbn. now destruct (p e). Qed.

Lemma count_nil p : count p [] = 0%nat.
Proof. reflexivity. Qed.

(** ** Strings *)

Lemma append_assoc (a b c : string) :
  String.append (String.append a b) c = String.append a (String.append b c).
Proof. induction a as [|ch a IH]; cbn; [reflexivity | now rewrite IH]. Qed.

Lemma length_append (a b : string) :
  String.length (String.append a b) = (String.length a + String.length b)%nat.
Proof. induction a as [|ch a IH]; cbn; [reflexivity | now rewrite IH]. Qed.

Lemma append_empty (a : string) : String.append a EmptyString = a.
Proof. induction a as [|ch a IH]; cbn; [reflexivity | now rewrite IH]. Qed.

Lemma length_spaces n : String.length (spaces n) = n.
Proof. induction n as [|n IH]; cbn; [reflexivity | now rewrite IH]. Qed.

Lemma stdout_app t1 t2 : stdout (t1 ++ t2) = String.append (stdout t1) (stdout t2).
Proof.
  induction t1 as [|e t1 IH]; cbn; [reflexivity|].
  destruct e; cbn; rewrite IH; auto using append_assoc.
Qed.

(** The padding loop appends spaces until the field size is reached and
    leaves through its test, never by running out of turns. *)
Lemma pad_loop_spaces fuel (s : string) :
  (String.length s <= GPU_NAME_TEXT_FIELD_SIZE)%nat ->
  (GPU_NAME_TEXT_FIELD_SIZE - String.length s <= fuel)%nat ->
  pad_loop fuel s = padded s.
Proof.
  unfold padded, GPU_NAME_TEXT_FIELD_SIZE. revert s.
  induction fuel as [|fuel IH]; intros s Hle Hfuel.
  - replace (22 - String.length s)%nat with 0%nat by lia.
    cbn. now rewrite append_empty.
  - cbn [pad_loop]. unfold GPU_NAME_TEXT_FIELD_SIZE.
    destruct (String.length s =? 22)%nat eqn:E; cbn [negb].
    + apply Nat.eqb_eq in E. rewrite E, Nat.sub_diag. cbn. now rewrite append_empty.
    + apply Nat.eqb_neq in E.
      rewrite IH by (rewrite length_append; cbn [String.length]; lia).
      rewrite length_append, append_assoc. cbn [String.length].
      replace (22 - String.length s)%nat
        with (S (22 - (String.length s + 1)))%nat by lia.
      reflexivity.
Qed.

Lemma pad_loop_exit (s : string) :
  (String.length s <= GPU_NAME_TEXT_FIELD_SIZE)%nat ->
  String.length (pad_loop GPU_NAME_TEXT_FIELD_SIZE s) = GPU_NAME_TEXT_FIELD_SIZE.
Proof.
  intros H. rewrite pad_loop_spaces by lia.
  unfold padded, GPU_NAME_TEXT_FIELD_SIZE in *.
  rewrite length_append, length_spaces. lia.
Qed.

(** ** One device *)

Section Device.
Variable env : Env.

(** [update] writes the five metric fields and nothing else. *)
Lemma GPUDevice_update_frame now d :
  let d' := obj_of (GPUDevice_update env now d) in
  index d' = index d /\ name d' = name d /\ handle d' = handle d /\
  dmCurrent d' = dmCurrent d /\ dmPending d' = dmPending d.
Proof. run_update; cbn; auto. Qed.

(** Every NVML call of [update] is made at the moment of the visit. *)
Lemma GPUDevice_update_moment now d q m res :
  In (CallDevice q m res) (trace_of (GPUDevice_update env now d)) -> m = now.
Proof.
  run_update; cbn; intros H;
    repeat (destruct H as [H|H]; [try discriminate; now inversion H|]);
    contradiction.
Qed.

(** A code returned by [update] is a failed status, hence not zero. *)
Lemma GPUDevice_update_return now d code :
  flow_of (GPUDevice_update env now d) = Return code -> code <> 0.
Proof.
  run_update; cbn; intros H; try discriminate; inversion H; subst;
    read_statuses; assumption.
Qed.

(** In the trace of [update] every fatal error is followed by one
    shutdown: [checkError] releases the subsystem itself. *)
Lemma GPUDevice_update_balance now d :
  let t := trace_of (GPUDevice_update env now d) in
  count is_shutdown t = count is_fatal t.
Proof.
  run_update; cbn;
    repeat rewrite count_cons; rewrite ?count_nil; cbn;
    repeat match goal with H : (_ =? NVML_SUCCESS) = _ |- _ => rewrite H end;
    reflexivity.
Qed.

(** A failed temperature query makes [update] return a non-zero code:
    the status of the temperature query, or that of the memory query
    when that one failed first. *)
Lemma GPUDevice_update_temperature_fails now d :
  fst (nvmlDeviceGetTemperature env now (handle d)) <> NVML_SUCCESS ->
  exists code, flow_of (GPUDevice_update env now d) = Return code /\ code <> 0.
Proof.
  intros H. run_update; cbn; read_statuses; eauto.
Qed.

(** C8: when the power query is reached and succeeds with [mw]
    milliwatts, [update] stores [mw / 1000] watts, the quotient
    truncated toward zero. *)
Theorem power_in_watts now d mw :
  fst (nvmlDeviceGetMemoryInfo env now (handle d)) = NVML_SUCCESS ->
  nvmlDeviceGetPowerUsage env now (handle d) = (NVML_SUCCESS, mw) ->
  0 <= mw < 2 ^ 32 ->
  power (obj_of (GPUDevice_update env now d)) = mw / 1000 /\
  mw / 1000 = Z.quot mw 1000.
Proof.
  intros Hm Hp Hr. split; [|now rewrite Z.quot_div_nonneg by lia].
  unfold GPUDevice_update; step_stmt. rewrite Hp.
  follow_statuses; cbn;
    unfold to_unsigned; rewrite Z.mod_small by lia; reflexivity.
Qed.

(** C5: when the fan speed query fails and the required queries
    succeed, [update] stores the sentinel in [fanSpeed], reports no
    error and reaches its closing brace: no [return] statement is
    executed, so the caller reads whatever value the platform leaves,
    not a success code. *)
Theorem fan_failure_no_return now d :
  fst (nvmlDeviceGetFanSpeed env now (handle d)) <> NVML_SUCCESS ->
  fst (nvmlDeviceGetMemoryInfo env now (handle d)) = NVML_SUCCESS ->
  fst (nvmlDeviceGetTemperature env now (handle d)) = NVML_SUCCESS ->
  fst (nvmlDeviceGetUtilizationRates env now (handle d)) = NVML_SUCCESS ->
  let r := GPUDevice_update env now d in
  fanSpeed (obj_of r) = 2 ^ 32 - 1 /\
  count is_shutdown (trace_of r) = 0%nat /\
  count is_printf (trace_of r) = 0%nat /\
  flow_of r = Next tt /\
  forall junk, fst (fst (eval_int junk (GPUDevice_update env now) d)) = junk.
Proof.
  intros Hf Hm Ht Hu. run_update; cbn; repeat split; reflexivity.
Qed.

(** [init] keeps the index it was given. *)
Lemma GPUDevice_init_index now d :
  index (obj_of (GPUDevice_init env now d)) = index d.
Proof.
  run_init; try reflexivity;
    destruct (String.length _ =? _)%nat; try destruct (String.length _ <? _)%nat;
    follow_statuses; reflexivity.
Qed.

Lemma GPUDevice_init_moment now d q m res :
  In (CallDevice q m res) (trace_of (GPUDevice_init env now d)) -> m = now.
Proof.
  run_init;
    try (destruct (String.length _ =? _)%nat; try destruct (String.length _ <? _)%nat;
         follow_statuses);
    cbn; intros H;
    repeat (destruct H as [H|H]; [try discriminate; now inversion H|]);
    contradiction.
Qed.

Lemma GPUDevice_init_balance now d :
  let t := trace_of (GPUDevice_init env now d) in
  count is_shutdown t = count is_fatal t.
Proof.
  run_init;
    try (destruct (String.length _ =? _)%nat; try destruct (String.length _ <? _)%nat;
         follow_statuses);
    cbn;
    repeat rewrite count_cons; rewrite ?count_nil; cbn;
    repeat match goal with H : (_ =? NVML_SUCCESS) = _ |- _ => rewrite H end;
    reflexivity.
Qed.

(** C7: the name [init] stores for a non-empty queried text is that
    text, right-padded with spaces to 22 characters when it is shorter
    and unchanged when it has 22 characters or more. *)
Theorem name_padding now d h temp :
  nvmlDeviceGetHandleByIndex env now (index d) = (NVML_SUCCESS, h) ->
  nvmlDeviceGetName env now h = (NVML_SUCCESS, temp) ->
  temp <> EmptyString ->
  let d' := obj_of (GPUDevice_init env now d) in
  name d' = (if (String.length temp <? 22)%nat
             then String.append temp (spaces (22 - String.length temp))
             else temp) /\
  String.length (name d') = Nat.max 22 (String.length temp).
Proof.
  intros Hh Hn _.
  assert (Hname : name (obj_of (GPUDevice_init env now d)) =
                  if (String.length temp <? 22)%nat then padded temp else temp).
  { assert (Hn1 : fst (nvmlDeviceGetName env now h) = NVML_SUCCESS)
      by now rewrite Hn.
    unfold GPUDevice_init, GPUDevice_update. step_stmt. rewrite Hh.
    follow_statuses; rewrite Hn; step_stmt;
    unfold GPU_NAME_TEXT_FIELD_SIZE;
    destruct (String.length temp =? 22)%nat eqn:E1;
      destruct (String.length temp <? 22)%nat eqn:E2;
      follow_statuses; try reflexivity;
      try (apply Nat.eqb_eq in E1; apply Nat.ltb_lt in E2; lia);
      apply Nat.ltb_lt in E2;
      apply pad_loop_spaces; unfold GPU_NAME_TEXT_FIELD_SIZE; lia. }
  cbv zeta. rewrite Hname. unfold padded, GPU_NAME_TEXT_FIELD_SIZE.
  split; [reflexivity|].
  destruct (String.length temp <? 22)%nat eqn:E.
  - apply Nat.ltb_lt in E. rewrite length_append, length_spaces. lia.
  - apply Nat.ltb_ge in E. lia.
Qed.
End Device.

(** ** The registry *)

Section Registry.
Variable env : Env.

Lemma update_loop_frame c ds : forall i,
  Forall2 same_identity ds (snd (fst (update_loop env c i ds))).
Proof.
  induction ds as [|d rest IH]; intros i; cbn [update_loop]; [constructor|].
  pose proof (GPUDevice_update_frame env (mkMoment c i) d) as Hd.
  unfold eval_int.
  destruct (GPUDevice_update env (mkMoment c i) d) as [[f d1] t1].
  assert (same_identity d d1) by exact Hd.
  assert (Hrest : Forall2 same_identity rest rest).
  { clear. induction rest; constructor; auto. repeat split. }
  specialize (IH (S i)).
  destruct (update_loop env c (S i) rest) as [[broke rest1] t2].
  destruct f as [[]|code];
    match goal with |- context [negb ?b] => destruct b end; cbn;
    constructor; auto.
Qed.

Lemma update_loop_balance c ds : forall i,
  let t := snd (update_loop env c i ds) in
  count is_shutdown t = count is_fatal t.
Proof.
  induction ds as [|d rest IH]; intros i; cbn [update_loop]; [reflexivity|].
  pose proof (GPUDevice_update_balance env (mkMoment c i) d) as Hd.
  unfold eval_int.
  destruct (GPUDevice_update env (mkMoment c i) d) as [[f d1] t1].
  read_run Hd. specialize (IH (S i)).
  destruct (update_loop env c (S i) rest) as [[broke rest1] t2].
  read_run IH.
  destruct f as [[]|code];
    match goal with |- context [negb ?b] => destruct b end;
    cbv beta iota zeta delta [snd negb];
    rewrite ?count_app; congruence.
Qed.

(** Every query of one pass over [ds] belongs to cycle [c] and to a
    slot of the pass. *)
Lemma update_loop_moments c ds : forall i q m res,
  In (CallDevice q m res) (snd (update_loop env c i ds)) ->
  cycle m = c /\ (i <= slot m)%nat.
Proof.
  induction ds as [|d rest IH]; intros i q m res; cbn [update_loop];
    [intros []|].
  pose proof (GPUDevice_update_moment env (mkMoment c i) d q m res) as Hd.
  unfold eval_int.
  destruct (GPUDevice_update env (mkMoment c i) d) as [[f d1] t1].
  read_run Hd. specialize (IH (S i) q m res).
  destruct (update_loop env c (S i) rest) as [[broke rest1] t2].
  read_run IH.
  destruct f as [[]|code];
    match goal with |- context [negb ?b] => destruct b end; cbn;
    rewrite ?in_app_iff; intros H;
    repeat match goal with
      | H : _ \/ _ |- _ => destruct H
      | H : In _ t1 |- _ => apply Hd in H; subst m; cbn; split; [reflexivity | lia]
      | H : In _ t2 |- _ => apply IH in H; destruct H; split; [assumption | lia]
      end.
Qed.

(** A device whose temperature query fails ends the pass: the loop is
    left through [break] at that device or before it. *)
Lemma update_loop_temperature c ds : forall i k d,
  nth_error ds k = Some d ->
  fst (nvmlDeviceGetTemperature env (mkMoment c (i + k)) (handle d)) <> NVML_SUCCESS ->
  let r := update_loop env c i ds in
  fst (fst r) = true /\
  (forall q m res, In (CallDevice q m res) (snd r) -> (slot m <= i + k)%nat) /\
  (forall j, (k < j)%nat -> nth_error (snd (fst r)) j = nth_error ds j).
Proof.
  induction ds as [|d0 rest IH]; intros i k d Hk Ht; [now destruct k|].
  cbn [update_loop].
  pose proof (GPUDevice_update_moment env (mkMoment c i) d0) as Hm.
  pose proof (GPUDevice_update_return env (mkMoment c i) d0) as Hr.
  unfold eval_int.
  destruct k as [|k]; cbn in Hk.
  - inversion Hk; subst d0; clear Hk.
    rewrite Nat.add_0_r in Ht.
    destruct (GPUDevice_update_temperature_fails env _ _ Ht) as (code & Hc & Hne).
    destruct (GPUDevice_update env (mkMoment c i) d) as [[f d1] t1].
    read_run Hc. read_run Hm. subst f.
    apply Z.eqb_neq in Hne. rewrite Hne. cbn.
    split; [reflexivity|]. split.
    + intros q m res H. apply Hm in H. subst m. cbn. lia.
    + intros [|j] Hj; [lia | reflexivity].
  - specialize (IH (S i) k d Hk).
    rewrite Nat.add_succ_r in Ht. specialize (IH Ht).
    pose proof (update_loop_moments c rest (S i)) as Hrest.
    destruct (GPUDevice_update env (mkMoment c i) d0) as [[f d1] t1].
    read_run Hm. read_run Hr.
    destruct (update_loop env c (S i) rest) as [[broke rest1] t2].
    read_run IH. read_run Hrest. destruct IH as (Hb & Hev & Hlater).
    assert (Ht1 : forall q m res, In (CallDevice q m res) t1 ->
                                  (slot m <= i + S k)%nat).
    { intros q m res H. apply Hm in H. subst m. cbn. lia. }
    destruct f as [[]|code];
      match goal with |- context [negb ?b] => destruct b end; cbn;
      (split; [try reflexivity; try assumption|]); (split;
       [ intros q m res H; rewrite ?in_app_iff in H;
         repeat match goal with H : _ \/ _ |- _ => destruct H end;
         eauto; match goal with H : In _ t2 |- _ => apply Hev in H; lia end
       | intros [|j] Hj; [lia|]; cbn; try reflexivity; apply Hlater; lia ]).
Qed.

(** [DeviceManager::update] in terms of its loop: [valid] is cleared
    exactly when the loop was left through [break], and the function
    returns [!valid]. *)
Lemma DeviceManager_update_run c devMan :
  let loop := update_loop env c 0 (devices devMan) in
  let v := if fst (fst loop) then false else valid devMan in
  DeviceManager_update env c devMan =
    (Return (if negb v then 1 else 0),
     mkDeviceManager (driverVersion devMan) (numDevices devMan) (snd (fst loop)) v,
     snd loop).
Proof.
  unfold DeviceManager_update. step_stmt.
  destruct (update_loop env c 0 (devices devMan)) as [[broke ds] t].
  destruct broke; step_stmt; rewrite app_nil_r; reflexivity.
Qed.

Lemma refreshed_frame n devMan :
  Forall2 same_identity (devices devMan) (devices (refreshed env n devMan)) /\
  numDevices (refreshed env n devMan) = numDevices devMan.
Proof.
  induction n as [|n [IH1 IH2]]; cbn [refreshed].
  - split; [|reflexivity]. induction (devices devMan); constructor; auto.
    repeat split.
  - rewrite DeviceManager_update_run. cbn [obj_of devices numDevices].
    split; [|assumption].
    pose proof (update_loop_frame (S n) (devices (refreshed env n devMan)) 0) as H.
    revert IH1 H. generalize (devices devMan).
    generalize (snd (fst (update_loop env (S n) 0 (devices (refreshed env n devMan))))).
    generalize (devices (refreshed env n devMan)).
    intros l2. induction l2 as [|b l2 IHl]; intros l3 l1 H12 H23;
      inversion H12; subst; inversion H23; subst; constructor; eauto.
    unfold same_identity in *. intuition congruence.
Qed.

(** The enumeration loop: every slot gets its position as index. *)
Lemma init_loop_index ds : forall i k d,
  nth_error (snd (fst (init_loop env i ds))) k = Some d ->
  index d = to_int (Z.of_nat (i + k)).
Proof.
  induction ds as [|d0 rest IH]; intros i k d; cbn [init_loop];
    [now destruct k|].
  pose proof (GPUDevice_init_index env (mkMoment 0 i)
                (set_index (to_int (Z.of_nat i)) d0)) as Hi.
  unfold eval_int.
  destruct (GPUDevice_init env (mkMoment 0 i) (set_index (to_int (Z.of_nat i)) d0))
    as [[f d1] t1].
  read_run Hi. specialize (IH (S i)).
  destruct (init_loop env (S i) rest) as [[u rest1] t2].
  assert (Hnth : nth_error (d1 :: rest1) k = Some d ->
                 index d = to_int (Z.of_nat (i + k))).
  { destruct k as [|k]; cbn [nth_error].
    - intros H. inversion H; subst. rewrite Hi, Nat.add_0_r. reflexivity.
    - intros H. apply IH in H. now rewrite Nat.add_succ_r. }
  destruct f; exact Hnth.
Qed.

Lemma init_loop_length ds : forall i,
  List.length (snd (fst (init_loop env i ds))) = List.length ds.
Proof.
  induction ds as [|d0 rest IH]; intros i; cbn [init_loop]; [reflexivity|].
  unfold eval_int.
  destruct (GPUDevice_init env (mkMoment 0 i) (set_index (to_int (Z.of_nat i)) d0))
    as [[f d1] t1].
  specialize (IH (S i)).
  destruct (init_loop env (S i) rest) as [[u rest1] t2].
  destruct f; cbn in *; now rewrite IH.
Qed.

Lemma init_loop_balance ds : forall i,
  let t := snd (init_loop env i ds) in
  count is_shutdown t = count is_fatal t.
Proof.
  induction ds as [|d0 rest IH]; intros i; cbn [init_loop]; [reflexivity|].
  pose proof (GPUDevice_init_balance env (mkMoment 0 i)
                (set_index (to_int (Z.of_nat i)) d0)) as Hd.
  unfold eval_int.
  destruct (GPUDevice_init env (mkMoment 0 i) (set_index (to_int (Z.of_nat i)) d0))
    as [[f d1] t1].
  read_run Hd. specialize (IH (S i)).
  destruct (init_loop env (S i) rest) as [[u rest1] t2].
  read_run IH.
  destruct f; cbv beta iota zeta delta [snd]; rewrite !count_app; congruence.
Qed.

Lemma resize_nil_length n : List.length (resize n []) = n.
Proof.
  unfold resize. rewrite firstn_nil, length_app, repeat_length. cbn. lia.
Qed.

(** [DeviceManager::init] never reaches its closing brace. *)
Lemma DeviceManager_init_returns this :
  exists code, flow_of (DeviceManager_init env this) = Return code.
Proof.
  unfold DeviceManager_init. step_stmt.
  destruct (nvmlInit env =? NVML_ERROR_DRIVER_NOT_LOADED);
    [|destruct (nvmlInit env =? NVML_ERROR_NO_PERMISSION);
      [|destruct (nvmlInit env =? NVML_ERROR_UNKNOWN)]];
    follow_statuses;
    try (destruct (init_loop env 0 _) as [[u ds] t]; step_stmt);
    eexists; reflexivity.
Qed.

(** The constructor: when [valid] is set, how the subsystem is left,
    and how the devices are numbered. *)
Lemma DeviceManager_new_spec :
  let devMan := fst (DeviceManager_new env) in
  let t := snd (DeviceManager_new env) in
  (valid devMan = true <->
     ~ (nvmlInit env = NVML_SUCCESS /\
        (fst (nvmlSystemGetDriverVersion env) <> NVML_SUCCESS \/
         fst (nvmlDeviceGetCount env) <> NVML_SUCCESS))) /\
  count is_shutdown t = count is_fatal t /\
  List.length (devices devMan) = Z.to_nat (numDevices devMan) /\
  (forall k d, nth_error (devices devMan) k = Some d ->
               index d = to_int (Z.of_nat k)).
Proof.
  unfold DeviceManager_new, DeviceManager_init. step_stmt.
  destruct (nvmlInit env =? NVML_ERROR_DRIVER_NOT_LOADED) eqn:E1;
    [|destruct (nvmlInit env =? NVML_ERROR_NO_PERMISSION) eqn:E2;
      [|destruct (nvmlInit env =? NVML_ERROR_UNKNOWN) eqn:E3]];
    follow_statuses;
    try (pose proof (init_loop_index
                       (resize (Z.to_nat (to_unsigned (snd (nvmlDeviceGetCount env)))) [])
                       0) as Hindex;
         pose proof (init_loop_length
                       (resize (Z.to_nat (to_unsigned (snd (nvmlDeviceGetCount env)))) [])
                       0) as Hlength;
         pose proof (init_loop_balance
                       (resize (Z.to_nat (to_unsigned (snd (nvmlDeviceGetCount env)))) [])
                       0) as Hbalance;
         destruct (init_loop env 0 _) as [[u ds] t];
         read_run Hindex; read_run Hlength; read_run Hbalance;
         rewrite resize_nil_length in Hlength; step_stmt);
    rewrite ?count_cons, ?count_app, ?count_nil;
    cbn [is_shutdown is_fatal required andb negb];
    unfold NVML_SUCCESS, NVML_ERROR_DRIVER_NOT_LOADED, NVML_ERROR_NO_PERMISSION,
      NVML_ERROR_UNKNOWN in *;
    rewrite ?(Z.eqb_sym 0);
    repeat match goal with
      | H : (_ =? _) = _ |- _ => rewrite ?H; (apply Z.eqb_eq in H || apply Z.eqb_neq in H)
      end;
    change (0 =? 0) with true;
    cbn [valid set_valid devices numDevices negb List.length
         set_driverVersion set_numDevices set_devices];
    (split; [intuition (try discriminate; try congruence)|]);
    (split; [lia|]);
    (split; [try reflexivity; try assumption|]);
    intros k d Hk; try (now destruct k); now apply Hindex.
Qed.
End Registry.

(** ** Rendering *)

Lemma all_printf_count t :
  all_printf t -> count is_shutdown t = 0%nat /\ count is_fatal t = 0%nat.
Proof.
  induction 1 as [|e t He _ [IH1 IH2]]; [split; reflexivity|].
  rewrite !count_cons, IH1, IH2. destruct e; try discriminate. split; reflexivity.
Qed.

Lemma GPUDevice_print_run d :
  exists line, GPUDevice_print d = (Next tt, d, [Printf line]).
Proof. unfold GPUDevice_print. step_stmt. eexists. reflexivity. Qed.

Lemma for_each_print ds :
  fst (for_each GPUDevice_print ds) = ds /\
  all_printf (snd (for_each GPUDevice_print ds)).
Proof.
  induction ds as [|d rest [IH1 IH2]]; cbn [for_each]; [split; [reflexivity|constructor]|].
  destruct (GPUDevice_print_run d) as [line ->].
  destruct (for_each GPUDevice_print rest) as [rest1 t2].
  cbn in *. subst rest1. split; [reflexivity|]. constructor; auto.
Qed.

(** [print] leaves the registry as it is and writes the time stamp
    followed by text that depends on the registry only. *)
Lemma DeviceManager_print_run hrTime devMan :
  DeviceManager_print hrTime devMan = (Next tt, devMan, Printf hrTime :: table devMan) /\
  all_printf (table devMan).
Proof.
  unfold table, DeviceManager_print. step_stmt.
  destruct (for_each_print (devices devMan)) as [Hds Ht].
  destruct (for_each GPUDevice_print (devices devMan)) as [ds t].
  cbn [fst snd] in Hds, Ht. subst ds. step_stmt.
  destruct devMan as [v n ds b]. cbn [tl set_devices driverVersion numDevices devices valid].
  split; [reflexivity|].
  repeat (constructor; [reflexivity|]).
  unfold all_printf in *. rewrite Forall_app. split; [assumption|].
  repeat constructor.
Qed.

(** ** The run of main *)

Section Run.
Variable env : Env.

Lemma main_turn_run c devMan :
  exists cursor,
    main_turn env c devMan =
      (Next tt, obj_of (DeviceManager_update env c devMan),
       Printf cursor :: Printf (ctime_now env c) :: table devMan ++
       SleepFor 500 :: trace_of (DeviceManager_update env c devMan)).
Proof.
  unfold main_turn, moveCursorTo. step_stmt.
  destruct (DeviceManager_print_run (ctime_now env c) devMan) as [-> _].
  step_stmt. rewrite DeviceManager_update_run. step_stmt.
  eexists. rewrite app_nil_r. reflexivity.
Qed.

Lemma main_turn_balance c devMan :
  let t := trace_of (main_turn env c devMan) in
  count is_shutdown t = count is_fatal t.
Proof.
  destruct (main_turn_run c devMan) as [cursor ->].
  destruct (DeviceManager_print_run EmptyString devMan) as [_ Ht].
  apply all_printf_count in Ht. destruct Ht as [Ht1 Ht2].
  rewrite DeviceManager_update_run.
  pose proof (update_loop_balance env c (devices devMan) 0) as Hb.
  cbv beta iota zeta delta [trace_of] in *.
  rewrite !count_cons, !count_app, !count_cons, Ht1, Ht2. cbn. exact Hb.
Qed.

(** The loop is left exactly when the registry is invalid; while it
    runs, every fatal error is answered by one shutdown. *)
Lemma main_loop_spec fuel : forall c devMan,
  let r := main_loop env fuel c devMan in
  fst (fst r) = negb (valid (snd (fst r))) /\
  count is_shutdown (snd r) = count is_fatal (snd r).
Proof.
  induction fuel as [|fuel IH]; intros c devMan; cbn [main_loop]; unfold isValid.
  - destruct (valid devMan) eqn:E; cbn; rewrite E; split; reflexivity.
  - destruct (valid devMan) eqn:E; [|cbn; rewrite E; split; reflexivity].
    pose proof (main_turn_balance c devMan) as Hb.
    destruct (main_turn env c devMan) as [[f devMan1] t1].
    read_run Hb. specialize (IH (S c) devMan1).
    destruct (main_loop env fuel (S c) devMan1) as [[done devMan2] t2].
    cbn [fst snd] in *. destruct IH as [IH1 IH2].
    split; [assumption|]. rewrite !count_app. congruence.
Qed.
End Run.

(** ** Claims about the registry and the process *)

Lemma Forall2_nth_error {A} (R : A -> A -> Prop) l l' k b :
  Forall2 R l l' -> nth_error l' k = Some b ->
  exists a, nth_error l k = Some a /\ R a b.
Proof.
  intros H. revert k. induction H as [|x y l l' Hxy _ IH]; intros [|k] Hk;
    try discriminate; cbn in *.
  - inversion Hk; subst. eauto.
  - eauto.
Qed.

Lemma to_int_small z : 0 <= z <= INT_MAX -> to_int z = z.
Proof.
  unfold to_int, INT_MAX. intros H. rewrite Z.mod_small; lia.
Qed.

Section Claims.
Variable env : Env.

(** C4: if the temperature query of the device in slot [k] fails in
    cycle [c], the refresh of that device returns a non-zero code,
    [DeviceManager::update] reports failure and clears [valid], and no
    device after slot [k] is queried or changed in that cycle. *)
Theorem temperature_failure_stops_cycle c devMan k d :
  nth_error (devices devMan) k = Some d ->
  fst (nvmlDeviceGetTemperature env (mkMoment c k) (handle d)) <> NVML_SUCCESS ->
  let r := DeviceManager_update env c devMan in
  (exists code, flow_of (GPUDevice_update env (mkMoment c k) d) = Return code /\
                code <> 0) /\
  flow_of r = Return 1 /\
  valid (obj_of r) = false /\
  (forall q m res, In (CallDevice q m res) (trace_of r) -> (slot m <= k)%nat) /\
  (forall j, (k < j)%nat ->
             nth_error (devices (obj_of r)) j = nth_error (devices devMan) j).
Proof.
  intros Hk Ht.
  pose proof (update_loop_temperature env c (devices devMan) 0 k d Hk Ht) as H.
  cbv zeta in *. rewrite DeviceManager_update_run.
  destruct (update_loop env c 0 (devices devMan)) as [[broke ds] t].
  cbn [fst snd flow_of obj_of trace_of valid devices] in *.
  destruct H as (-> & Hev & Hlater).
  split; [now apply GPUDevice_update_temperature_fails|].
  repeat split; auto.
Qed.

(** C9: after construction and any number of refresh cycles, the device
    in slot [k] has index [k], and [k] is below the device count. *)
Theorem index_is_position n k d :
  nth_error (devices (refreshed env n (fst (DeviceManager_new env)))) k = Some d ->
  Z.of_nat k <= INT_MAX ->
  index d = Z.of_nat k /\
  0 <= Z.of_nat k < numDevices (refreshed env n (fst (DeviceManager_new env))).
Proof.
  intros Hk Hmax.
  destruct (refreshed_frame env n (fst (DeviceManager_new env))) as [Hf Hn].
  destruct (DeviceManager_new_spec env) as (_ & _ & Hlen & Hidx).
  cbv zeta in Hlen, Hidx.
  destruct (Forall2_nth_error _ _ _ _ _ Hf Hk) as (d0 & Hk0 & Hid).
  destruct Hid as (Hi & _). rewrite Hi, (Hidx _ _ Hk0), Hn.
  split; [apply to_int_small; lia|].
  assert (k < List.length (devices (fst (DeviceManager_new env))))%nat
    by (apply nth_error_Some; congruence).
  lia.
Qed.

(** C10: a refresh leaves the index, the name, the handle and the two
    driver-model fields of every device as they were, for one device
    and for the whole registry. *)
Theorem refresh_keeps_identity :
  (forall now d, same_identity d (obj_of (GPUDevice_update env now d))) /\
  (forall c devMan,
      Forall2 same_identity (devices devMan)
              (devices (obj_of (DeviceManager_update env c devMan)))).
Proof.
  split.
  - intros now d. exact (GPUDevice_update_frame env now d).
  - intros c devMan. rewrite DeviceManager_update_run. cbn [obj_of devices].
    apply update_loop_frame.
Qed.

(** C3 (as the code has it): when [main] returns, it returns 0, and it
    returns exactly when the registry has become invalid; until then
    the loop is still running.  No provider error code reaches the exit
    status. *)
Theorem exit_status_zero fuel :
  let r := main env fuel in
  (fst (fst r) = Some 0 /\ valid (snd (fst r)) = false) \/
  (fst (fst r) = None /\ valid (snd (fst r)) = true).
Proof.
  unfold main, DeviceManager_delete, emit.
  destruct (DeviceManager_new env) as [devMan t0].
  pose proof (main_loop_spec env fuel 1 devMan) as [H _].
  destruct (main_loop env fuel 1 devMan) as [[done devMan1] t1].
  cbn [fst snd] in H.
  destruct done; cbn [fst snd]; destruct (valid devMan1); try discriminate; auto.
Qed.

(** C6 (as the code has it): in a run of [main] that returns, the
    subsystem is shut down by the destructor, which is the last event of
    the run, and by [checkError] for every fatal provider error before
    it: it is shut down at least once more than there are fatal errors,
    so never zero times and more than once after a fatal error. *)
Theorem shutdown_count fuel status :
  fst (fst (main env fuel)) = Some status ->
  let t := trace_of (main env fuel) in
  (S (count is_fatal t) <= count is_shutdown t)%nat /\
  exists before, t = before ++ [CallShutdown].
Proof.
  unfold main, DeviceManager_delete, emit.
  destruct (DeviceManager_new_spec env) as (_ & H0 & _). cbv zeta in H0.
  destruct (DeviceManager_new env) as [devMan t0]. cbn [snd] in H0.
  pose proof (main_loop_spec env fuel 1 devMan) as [_ H1].
  destruct (main_loop env fuel 1 devMan) as [[done devMan1] t1].
  cbn [snd] in H1.
  destruct done; cbn [fst snd trace_of]; [intros _ | discriminate].
  split.
  - rewrite !count_app, count_cons, count_nil. cbn. lia.
  - exists (t0 ++ t1). now rewrite app_assoc.
Qed.

(** The constructor sets [valid] unless [nvmlInit] succeeded and the
    driver version or the device count could not be read.  Neither a
    failed [nvmlInit] nor a failed device initialization clears it: the
    answers to the device queries do not occur in the condition. *)
Theorem valid_after_construction :
  valid (fst (DeviceManager_new env)) = true <->
  ~ (nvmlInit env = NVML_SUCCESS /\
     (fst (nvmlSystemGetDriverVersion env) <> NVML_SUCCESS \/
      fst (nvmlDeviceGetCount env) <> NVML_SUCCESS)).
Proof. exact (proj1 (DeviceManager_new_spec env)). Qed.
End Claims.

(** C2 (as the code has it): two renderings with no refresh between them
    leave the registry unchanged, make no call into NVML, and write the
    same text after the time stamp each of them starts with. *)
Theorem render_twice (devMan : DeviceManager) (t1 t2 : string) :
  let r1 := DeviceManager_print t1 devMan in
  let r2 := DeviceManager_print t2 (obj_of r1) in
  obj_of r1 = devMan /\ obj_of r2 = devMan /\
  all_printf (trace_of r1 ++ trace_of r2) /\
  stdout (trace_of r1) = String.append t1 (stdout (table devMan)) /\
  stdout (trace_of r2) = String.append t2 (stdout (table devMan)).
Proof.
  cbv zeta.
  destruct (DeviceManager_print_run t1 devMan) as [-> Ht].
  cbn [obj_of trace_of].
  destruct (DeviceManager_print_run t2 devMan) as [-> _].
  cbn [obj_of trace_of stdout].
  repeat split; try reflexivity.
  unfold all_printf in *. apply Forall_app; split; constructor; auto.
Qed.

(** ** The claims on the sample environments *)

(** C1 on a machine whose driver is not running: [nvmlInit] fails, the
    failure is printed, and the registry is nevertheless marked valid, so
    the loop of [main] keeps drawing an empty table. *)
Lemma valid_without_driver :
  nvmlInit Samples.no_driver = NVML_ERROR_DRIVER_NOT_LOADED /\
  NVML_ERROR_DRIVER_NOT_LOADED <> NVML_SUCCESS /\
  valid (fst (DeviceManager_new Samples.no_driver)) = true /\
  devices (fst (DeviceManager_new Samples.no_driver)) = [] /\
  fst (fst (main Samples.no_driver 3)) = None.
Proof. repeat split; try reflexivity. discriminate. Qed.

(** A failed device initialization leaves the registry valid: the handle
    of device 1 cannot be resolved, [checkError] shuts the subsystem
    down, and the constructor still sets [valid]. *)
Example valid_with_lost_device :
  valid (fst (DeviceManager_new Samples.lost_device)) = true /\
  count is_shutdown (snd (DeviceManager_new Samples.lost_device)) = 1%nat /\
  List.length (devices (fst (DeviceManager_new Samples.lost_device))) = 2%nat.
Proof. repeat split; vm_compute; reflexivity. Qed.

(** The line [GPUDevice::print] writes for the first device of the
    healthy machine: 2147483648 of 8589934592 bytes are shown as
    2048 / 8192, and 15999 milliwatts as 15W. *)
Example gpu0_line :
  stdout (trace_of (GPUDevice_print Samples.gpu0)) =
    cat ["|  0 GeForce GTX 1080        WDDM |  2048 /  8192 |  65C   40%     15W    37% |"%string;
         nl].
Proof. vm_compute. reflexivity. Qed.

(** C2 as stated fails: the healthy registry rendered at two clock
    readings, with no refresh between, gives two different texts. *)
Lemma render_twice_differs :
  let r1 := DeviceManager_print (Samples.stamp 1) Samples.registry in
  let r2 := DeviceManager_print (Samples.stamp 2) (obj_of r1) in
  stdout (trace_of r1) <> stdout (trace_of r2).
Proof.
  cbv zeta. apply String.eqb_neq. vm_compute. reflexivity.
Qed.

(** C3 as stated fails: the temperature query of device 0 fails with
    code 999 in the second cycle; the run ends with that query, the
    report of [checkError], its shutdown and the shutdown of the
    destructor, and the exit status is 0, not 999. *)
Lemma exit_status_hides_error :
  let r := main Samples.hot 5 in
  skipn (List.length (trace_of r) - 4) (trace_of r) =
    [CallDevice GetTemperature (mkMoment 2 0) NVML_ERROR_UNKNOWN;
     Printf (checkError_text 93 NVML_ERROR_UNKNOWN);
     CallShutdown; CallShutdown] /\
  fst (fst r) = Some 0 /\
  NVML_ERROR_UNKNOWN <> 0.
Proof. repeat split; try (vm_compute; reflexivity). discriminate. Qed.

(** C6 as stated fails: in the same run the subsystem is shut down more
    than once, by [checkError] for the failed temperature query and by
    the destructor. *)
Lemma shutdown_twice :
  fst (fst (main Samples.hot 5)) = Some 0 /\
  count is_fatal (trace_of (main Samples.hot 5)) = 1%nat /\
  (1 < count is_shutdown (trace_of (main Samples.hot 5)))%nat /\
  skipn (List.length (trace_of (main Samples.hot 5)) - 2) (trace_of (main Samples.hot 5))
    = [CallShutdown; CallShutdown].
Proof.
  split; [vm_compute; reflexivity|]. split; [vm_compute; reflexivity|].
  split; [apply Nat.ltb_lt; vm_compute; reflexivity | vm_compute; reflexivity].
Qed.

(** C4 on the machine whose temperature sensor fails in cycle 2. *)
Lemma temperature_failure_stops_cycle_witness :
  nth_error (devices Samples.registry) 0 = Some Samples.gpu0 /\
  fst (nvmlDeviceGetTemperature Samples.hot (mkMoment 2 0) (handle Samples.gpu0))
    <> NVML_SUCCESS /\
  valid (obj_of (DeviceManager_update Samples.hot 2 Samples.registry)) = false /\
  (forall q m res,
      In (CallDevice q m res) (trace_of (DeviceManager_update Samples.hot 2 Samples.registry)) ->
      (slot m <= 0)%nat).
Proof.
  assert (H1 : nth_error (devices Samples.registry) 0 = Some Samples.gpu0)
    by reflexivity.
  assert (H2 : fst (nvmlDeviceGetTemperature Samples.hot (mkMoment 2 0)
                      (handle Samples.gpu0)) <> NVML_SUCCESS)
    by (vm_compute; discriminate).
  split; [exact H1|]. split; [exact H2|].
  pose proof (temperature_failure_stops_cycle Samples.hot 2 Samples.registry 0
                Samples.gpu0 H1 H2) as H.
  split; apply H.
Defined.

(** C5 on the machine without fan sensors. *)
Lemma fan_failure_no_return_witness :
  fst (nvmlDeviceGetFanSpeed Samples.no_fan (mkMoment 1 0) (handle Samples.gpu0))
    <> NVML_SUCCESS /\
  fanSpeed (obj_of (GPUDevice_update Samples.no_fan (mkMoment 1 0) Samples.gpu0))
    = 2 ^ 32 - 1 /\
  flow_of (GPUDevice_update Samples.no_fan (mkMoment 1 0) Samples.gpu0) = Next tt.
Proof.
  assert (H1 : fst (nvmlDeviceGetFanSpeed Samples.no_fan (mkMoment 1 0)
                      (handle Samples.gpu0)) <> NVML_SUCCESS)
    by (vm_compute; discriminate).
  split; [exact H1|].
  pose proof (fan_failure_no_return Samples.no_fan (mkMoment 1 0) Samples.gpu0 H1
                eq_refl eq_refl eq_refl) as H.
  split; apply H.
Defined.

(** C6 on the run that ends with a failed temperature query. *)
Lemma shutdown_count_witness :
  fst (fst (main Samples.hot 5)) = Some 0 /\
  (S (count is_fatal (trace_of (main Samples.hot 5))) <=
   count is_shutdown (trace_of (main Samples.hot 5)))%nat.
Proof.
  assert (H1 : fst (fst (main Samples.hot 5)) = Some 0)
    by (vm_compute; reflexivity).
  split; [exact H1|].
  exact (proj1 (shutdown_count Samples.hot 5 0 H1)).
Defined.

(** C7 on a 16-character name and on a 34-character name. *)
Lemma name_padding_witness :
  ("GeForce GTX 1080" <> EmptyString /\
   name (obj_of (GPUDevice_init Samples.healthy (mkMoment 0 0) GPUDevice_new))
     = "GeForce GTX 1080      ")%string /\
  ("NVIDIA GeForce RTX 4090 Laptop GPU" <> EmptyString /\
   name (obj_of (GPUDevice_init Samples.long_name (mkMoment 0 0) GPUDevice_new))
     = "NVIDIA GeForce RTX 4090 Laptop GPU")%string.
Proof.
  assert (H1 : "GeForce GTX 1080"%string <> EmptyString) by discriminate.
  assert (H2 : "NVIDIA GeForce RTX 4090 Laptop GPU"%string <> EmptyString)
    by discriminate.
  split; (split; [assumption|]).
  - exact (proj1 (name_padding Samples.healthy (mkMoment 0 0) GPUDevice_new 4096
                    "GeForce GTX 1080" eq_refl eq_refl H1)).
  - exact (proj1 (name_padding Samples.long_name (mkMoment 0 0) GPUDevice_new 4096
                    "NVIDIA GeForce RTX 4090 Laptop GPU" eq_refl eq_refl H2)).
Defined.

(** C8 on 15999 and on 15000 milliwatts: both give 15 watts. *)
Lemma power_in_watts_witness :
  power (obj_of (GPUDevice_update Samples.healthy (mkMoment 1 0) Samples.gpu0)) = 15 /\
  power (obj_of (GPUDevice_update Samples.round_power (mkMoment 1 0) Samples.gpu0)) = 15.
Proof.
  assert (H1 : 0 <= 15999 < 2 ^ 32) by (split; [discriminate | reflexivity]).
  assert (H2 : 0 <= 15000 < 2 ^ 32) by (split; [discriminate | reflexivity]).
  split.
  - exact (proj1 (power_in_watts Samples.healthy (mkMoment 1 0) Samples.gpu0 15999
                    eq_refl eq_refl H1)).
  - exact (proj1 (power_in_watts Samples.round_power (mkMoment 1 0) Samples.gpu0 15000
                    eq_refl eq_refl H2)).
Defined.

(** C9 on the second device of the healthy machine after three cycles. *)
Lemma index_is_position_witness :
  let devMan := refreshed Samples.healthy 3 (fst (DeviceManager_new Samples.healthy)) in
  nth_error (devices devMan) 1 = Some (nth 1 (devices devMan) GPUDevice_new) /\
  index (nth 1 (devices devMan) GPUDevice_new) = 1.
Proof.
  cbv zeta.
  assert (H1 : nth_error
                 (devices (refreshed Samples.healthy 3
                             (fst (DeviceManager_new Samples.healthy)))) 1 =
               Some (nth 1 (devices (refreshed Samples.healthy 3
                                       (fst (DeviceManager_new Samples.healthy))))
                         GPUDevice_new))
    by (vm_compute; reflexivity).
  assert (H2 : Z.of_nat 1 <= INT_MAX) by (vm_compute; discriminate).
  split; [exact H1|].
  exact (proj1 (index_is_position Samples.healthy 3 1 _ H1 H2)).
Defined.

(** * Further properties of the code *)

(** ** GPUDevice::update *)

Section Refresh.
Variable env : Env.

(** X1: the result of a refresh is decided by the memory, temperature and
    utilization queries alone, in that order: the first of them that
    fails gives the returned code, and when none fails the function
    reaches its closing brace.  Fan speed and power never end it. *)
Theorem update_result now d :
  flow_of (GPUDevice_update env now d) =
    if negb (fst (nvmlDeviceGetMemoryInfo env now (handle d)) =? NVML_SUCCESS)
    then Return (fst (nvmlDeviceGetMemoryInfo env now (handle d)))
    else if negb (fst (nvmlDeviceGetTemperature env now (handle d)) =? NVML_SUCCESS)
    then Return (fst (nvmlDeviceGetTemperature env now (handle d)))
    else if negb (fst (nvmlDeviceGetUtilizationRates env now (handle d)) =? NVML_SUCCESS)
    then Return (fst (nvmlDeviceGetUtilizationRates env now (handle d)))
    else Next tt.
Proof. run_update; reflexivity. Qed.

(** X2: a refresh whose required queries succeed asks for fan speed,
    memory, power, temperature and utilization, in this order, once
    each, and makes no other query about a device. *)
Theorem update_queries_in_order now d :
  fst (nvmlDeviceGetMemoryInfo env now (handle d)) = NVML_SUCCESS ->
  fst (nvmlDeviceGetTemperature env now (handle d)) = NVML_SUCCESS ->
  fst (nvmlDeviceGetUtilizationRates env now (handle d)) = NVML_SUCCESS ->
  filter is_query (trace_of (GPUDevice_update env now d)) =
    [CallDevice GetFanSpeed now (fst (nvmlDeviceGetFanSpeed env now (handle d)));
     CallDevice GetMemoryInfo now NVML_SUCCESS;
     CallDevice GetPowerUsage now (fst (nvmlDeviceGetPowerUsage env now (handle d)));
     CallDevice GetTemperature now NVML_SUCCESS;
     CallDevice GetUtilizationRates now NVML_SUCCESS].
Proof. intros Hm Ht Hu. run_update; reflexivity. Qed.

(** X3: a failed memory query ends the refresh at once: the error is
    reported for source line 81, the subsystem is shut down, the status
    is returned, and power, temperature and utilization are neither
    queried nor changed; only the fan speed has been written. *)
Theorem memory_failure_stops_refresh now d :
  fst (nvmlDeviceGetMemoryInfo env now (handle d)) <> NVML_SUCCESS ->
  let res := fst (nvmlDeviceGetMemoryInfo env now (handle d)) in
  let r := GPUDevice_update env now d in
  flow_of r = Return res /\
  trace_of r =
    [CallDevice GetFanSpeed now (fst (nvmlDeviceGetFanSpeed env now (handle d)));
     CallDevice GetMemoryInfo now res;
     Printf (checkError_text 81 res);
     CallShutdown] /\
  memory (obj_of r) = memory d /\ power (obj_of r) = power d /\
  temperature (obj_of r) = temperature d /\ utilization (obj_of r) = utilization d.
Proof. intros Hm. run_update; repeat split; reflexivity. Qed.

(** X4: a failed power query stores the sentinel [unsigned(-1)] in
    [power], and the refresh goes on to the temperature query. *)
Theorem power_failure_sentinel now d :
  fst (nvmlDeviceGetMemoryInfo env now (handle d)) = NVML_SUCCESS ->
  fst (nvmlDeviceGetPowerUsage env now (handle d)) <> NVML_SUCCESS ->
  let r := GPUDevice_update env now d in
  power (obj_of r) = 2 ^ 32 - 1 /\
  In (CallDevice GetTemperature now (fst (nvmlDeviceGetTemperature env now (handle d))))
     (trace_of r).
Proof.
  intros Hm Hp. run_update; (split; [reflexivity|]); cbn;
    repeat match goal with H : (_ =? NVML_SUCCESS) = true |- _ =>
             apply Z.eqb_eq in H; rewrite ?H end;
    auto 10.
Qed.

(** X5: a refresh in which all five queries succeed stores every answer
    in its field, the power converted to watts, and leaves the other
    fields as they were. *)
Theorem successful_refresh_stores_answers now d :
  fst (nvmlDeviceGetFanSpeed env now (handle d)) = NVML_SUCCESS ->
  fst (nvmlDeviceGetMemoryInfo env now (handle d)) = NVML_SUCCESS ->
  fst (nvmlDeviceGetPowerUsage env now (handle d)) = NVML_SUCCESS ->
  fst (nvmlDeviceGetTemperature env now (handle d)) = NVML_SUCCESS ->
  fst (nvmlDeviceGetUtilizationRates env now (handle d)) = NVML_SUCCESS ->
  let mem := snd (nvmlDeviceGetMemoryInfo env now (handle d)) in
  let util := snd (nvmlDeviceGetUtilizationRates env now (handle d)) in
  obj_of (GPUDevice_update env now d) =
    mkGPUDevice (index d) (name d)
      (to_unsigned (snd (nvmlDeviceGetFanSpeed env now (handle d))))
      (to_unsigned (snd (nvmlDeviceGetPowerUsage env now (handle d))) / 1000)
      (to_unsigned (snd (nvmlDeviceGetTemperature env now (handle d))))
      (mkUtilization (to_unsigned (gpu util)) (to_unsigned (util_memory util)))
      (dmCurrent d) (dmPending d)
      (mkMemory (to_ull (total mem)) (to_ull (free mem)) (to_ull (used mem)))
      (handle d).
Proof. intros Hf Hm Hp Ht Hu. run_update; reflexivity. Qed.
End Refresh.

(** ** GPUDevice::init *)

Section Initialization.
Variable env : Env.

(** X6: when the handle of a device cannot be resolved, [init] reports
    the error for source line 47, shuts the subsystem down and returns
    the status; the device is left as it was and nothing else is
    queried. *)
Theorem init_handle_failure now d :
  fst (nvmlDeviceGetHandleByIndex env now (index d)) <> NVML_SUCCESS ->
  let res := fst (nvmlDeviceGetHandleByIndex env now (index d)) in
  GPUDevice_init env now d =
    (Return res, d,
     [CallDevice GetHandleByIndex now res; Printf (checkError_text 47 res);
      CallShutdown]).
Proof. intros Hh. run_init. reflexivity. Qed.

(** X7: when the name query fails, [init] has stored the handle, reports
    the error for source line 50, shuts the subsystem down and returns
    the status; the name is not assigned and no metric is queried. *)
Theorem init_name_failure now d h :
  nvmlDeviceGetHandleByIndex env now (index d) = (NVML_SUCCESS, h) ->
  fst (nvmlDeviceGetName env now h) <> NVML_SUCCESS ->
  let res := fst (nvmlDeviceGetName env now h) in
  GPUDevice_init env now d =
    (Return res, set_handle h d,
     [CallDevice GetHandleByIndex now NVML_SUCCESS; CallDevice GetName now res;
      Printf (checkError_text 50 res); CallShutdown]).
Proof.
  intros Hh Hn. unfold GPUDevice_init. step_stmt. rewrite Hh.
  follow_statuses. reflexivity.
Qed.

(** X8: a failed driver-model query is not fatal: [init] prints a
    warning, leaves [dmCurrent] and [dmPending] as they were, does not
    shut the subsystem down for it, and goes on to the first refresh. *)
Theorem driver_model_failure_not_fatal now d h :
  nvmlDeviceGetHandleByIndex env now (index d) = (NVML_SUCCESS, h) ->
  fst (nvmlDeviceGetName env now h) = NVML_SUCCESS ->
  fst (nvmlDeviceGetDriverModel env now h) <> NVML_SUCCESS ->
  let r := GPUDevice_init env now d in
  dmCurrent (obj_of r) = dmCurrent d /\ dmPending (obj_of r) = dmPending d /\
  (exists rest,
      trace_of r =
        CallDevice GetHandleByIndex now NVML_SUCCESS ::
        CallDevice GetName now NVML_SUCCESS ::
        CallDevice GetDriverModel now (fst (nvmlDeviceGetDriverModel env now h)) ::
        Printf driver_model_warning ::
        CallDevice GetFanSpeed now (fst (nvmlDeviceGetFanSpeed env now h)) :: rest).
Proof.
  intros Hh Hn Hd. unfold GPUDevice_init, GPUDevice_update. step_stmt. rewrite Hh.
  follow_statuses;
    destruct (String.length _ =? _)%nat; try destruct (String.length _ <? _)%nat;
    follow_statuses; (split; [reflexivity|]); (split; [reflexivity|]);
    eexists; reflexivity.
Qed.

(** X9: when the three lookups of [init] succeed, the device holds the
    handle NVML gave for its index and the current and pending driver
    model NVML gave for that handle; the index is kept. *)
Theorem init_stores_identity now d h current pending :
  nvmlDeviceGetHandleByIndex env now (index d) = (NVML_SUCCESS, h) ->
  fst (nvmlDeviceGetName env now h) = NVML_SUCCESS ->
  nvmlDeviceGetDriverModel env now h = (NVML_SUCCESS, (current, pending)) ->
  let d' := obj_of (GPUDevice_init env now d) in
  index d' = index d /\ handle d' = h /\
  dmCurrent d' = current /\ dmPending d' = pending.
Proof.
  intros Hh Hn Hd.
  assert (Hd1 : fst (nvmlDeviceGetDriverModel env now h) = NVML_SUCCESS)
    by now rewrite Hd.
  unfold GPUDevice_init, GPUDevice_update. step_stmt. rewrite Hh.
  follow_statuses;
    destruct (String.length _ =? _)%nat; try destruct (String.length _ <? _)%nat;
    follow_statuses; rewrite ?Hd; repeat split; reflexivity.
Qed.

(** Every event of [init] is a message, a shutdown or a query made for
    the device being initialized. *)
Lemma GPUDevice_init_events now d :
  Forall (device_event now) (trace_of (GPUDevice_init env now d)).
Proof.
  run_init;
    try (destruct (String.length _ =? _)%nat; try destruct (String.length _ <? _)%nat;
         follow_statuses);
    repeat constructor.
Qed.

(** Every event of [update] is a message, a shutdown or one of the five
    metric queries. *)
Lemma GPUDevice_update_events now d :
  Forall refresh_event (trace_of (GPUDevice_update env now d)).
Proof. run_update; repeat constructor. Qed.
End Initialization.

(** ** DeviceManager: construction *)

Section Construction.
Variable env : Env.

Lemma GPUDevice_init_first now d :
  exists rest,
    trace_of (GPUDevice_init env now d) =
      CallDevice GetHandleByIndex now
        (fst (nvmlDeviceGetHandleByIndex env now (index d))) :: rest.
Proof.
  run_init;
    try (destruct (String.length _ =? _)%nat; try destruct (String.length _ <? _)%nat;
         follow_statuses);
    eexists; reflexivity.
Qed.

Lemma init_loop_visits ds : forall i k,
  (k < List.length ds)%nat ->
  exists res,
    In (CallDevice GetHandleByIndex (mkMoment 0 (i + k)) res)
       (snd (init_loop env i ds)).
Proof.
  induction ds as [|d0 rest IH]; intros i k Hk; cbn [List.length] in Hk; [lia|].
  cbn [init_loop].
  destruct (GPUDevice_init_first (mkMoment 0 i) (set_index (to_int (Z.of_nat i)) d0))
    as [t Ht].
  unfold eval_int.
  destruct (GPUDevice_init env (mkMoment 0 i) (set_index (to_int (Z.of_nat i)) d0))
    as [[f d1] t1].
  read_run Ht. subst t1.
  destruct k as [|k].
  - rewrite Nat.add_0_r.
    destruct (init_loop env (S i) rest) as [[u rest1] t2].
    destruct f; cbn [snd]; eexists; left; reflexivity.
  - destruct (IH (S i) k) as [res Hres]; [lia|].
    rewrite Nat.add_succ_r.
    destruct (init_loop env (S i) rest) as [[u rest1] t2].
    cbn [snd] in Hres.
    destruct f; cbn [snd]; exists res; right; apply in_or_app; right; exact Hres.
Qed.

Lemma init_loop_events ds : forall i,
  Forall construction_event (snd (init_loop env i ds)).
Proof.
  induction ds as [|d0 rest IH]; intros i; cbn [init_loop]; [constructor|].
  pose proof (GPUDevice_init_events env (mkMoment 0 i)
                (set_index (to_int (Z.of_nat i)) d0)) as Hd.
  unfold eval_int.
  destruct (GPUDevice_init env (mkMoment 0 i) (set_index (to_int (Z.of_nat i)) d0))
    as [[f d1] t1].
  read_run Hd. specialize (IH (S i)).
  destruct (init_loop env (S i) rest) as [[u rest1] t2].
  cbn [snd] in IH.
  assert (Forall construction_event t1).
  { eapply Forall_impl; [|exact Hd]. intros [] He; cbn in *; try exact I;
      try contradiction. now subst. }
  destruct f; cbn [snd]; apply Forall_app; split; assumption.
Qed.

(** The constructor on a machine where [nvmlInit] and the two system
    queries succeed. *)
Lemma DeviceManager_new_success :
  nvmlInit env = NVML_SUCCESS ->
  fst (nvmlSystemGetDriverVersion env) = NVML_SUCCESS ->
  fst (nvmlDeviceGetCount env) = NVML_SUCCESS ->
  let n := to_unsigned (snd (nvmlDeviceGetCount env)) in
  let loop := init_loop env 0 (resize (Z.to_nat n) []) in
  DeviceManager_new env =
    (mkDeviceManager (snd (nvmlSystemGetDriverVersion env)) n (snd (fst loop)) true,
     CallInit NVML_SUCCESS :: CallSystem GetDriverVersion NVML_SUCCESS ::
     CallSystem GetCount NVML_SUCCESS :: snd loop).
Proof.
  intros Hi Hv Hc. unfold DeviceManager_new, DeviceManager_init. step_stmt.
  rewrite Hi. cbn [Z.eqb NVML_SUCCESS NVML_ERROR_DRIVER_NOT_LOADED
                   NVML_ERROR_NO_PERMISSION NVML_ERROR_UNKNOWN Pos.eqb].
  fold NVML_SUCCESS. follow_statuses.
  destruct (init_loop env 0 _) as [[u ds] t]. step_stmt.
  rewrite app_nil_r. reflexivity.
Qed.

(** X10: when the subsystem and the two system queries succeed, the
    enumeration loop asks for the handle of every slot below the device
    count, whatever happened to the slots before it: a device that fails
    to initialize does not end the enumeration. *)
Theorem enumeration_visits_every_slot k :
  nvmlInit env = NVML_SUCCESS ->
  fst (nvmlSystemGetDriverVersion env) = NVML_SUCCESS ->
  fst (nvmlDeviceGetCount env) = NVML_SUCCESS ->
  Z.of_nat k < numDevices (fst (DeviceManager_new env)) ->
  exists res,
    In (CallDevice GetHandleByIndex (mkMoment 0 k) res) (snd (DeviceManager_new env)).
Proof.
  intros Hi Hv Hc. rewrite (DeviceManager_new_success Hi Hv Hc).
  cbn [fst snd numDevices]. intros Hk.
  destruct (init_loop_visits
              (resize (Z.to_nat (to_unsigned (snd (nvmlDeviceGetCount env)))) []) 0 k)
    as [res Hres].
  - rewrite resize_nil_length. lia.
  - exists res. cbn [Nat.add] in Hres. do 3 right. exact Hres.
Qed.

(** X11: what the constructor leaves in the registry.  The driver
    version is the queried one when [nvmlInit] and the version query
    succeeded and "Unknown" otherwise; the device count is the queried
    one when the count query succeeded as well and 0 otherwise; and
    [devices] always holds as many devices as [numDevices] says. *)
Theorem constructor_fields :
  let devMan := fst (DeviceManager_new env) in
  let init_ok := nvmlInit env =? NVML_SUCCESS in
  let version_ok := fst (nvmlSystemGetDriverVersion env) =? NVML_SUCCESS in
  let count_ok := fst (nvmlDeviceGetCount env) =? NVML_SUCCESS in
  driverVersion devMan =
    (if init_ok && version_ok then snd (nvmlSystemGetDriverVersion env)
     else "Unknown"%string) /\
  numDevices devMan =
    (if init_ok && version_ok && count_ok
     then to_unsigned (snd (nvmlDeviceGetCount env)) else 0) /\
  List.length (devices devMan) = Z.to_nat (numDevices devMan).
Proof.
  cbv zeta. split; [|split; [|exact (proj1 (proj2 (proj2 (DeviceManager_new_spec env))))]];
    unfold DeviceManager_new, DeviceManager_init; step_stmt;
    split_nvmlInit env; follow_statuses;
    try (destruct (init_loop env 0 _) as [[u ds] t]; step_stmt);
    repeat match goal with
      | |- context [if ?b then set_valid true _ else _] => destruct b
      end;
    reflexivity.
Qed.

(** X12: the constructor calls [nvmlInit] first and exactly once;
    afterwards it only prints, queries the driver version, the count and
    the devices of cycle 0, and shuts down on a fatal error. *)
Theorem construction_initializes_once :
  exists rest,
    snd (DeviceManager_new env) = CallInit (nvmlInit env) :: rest /\
    Forall construction_event rest.
Proof.
  unfold DeviceManager_new, DeviceManager_init; step_stmt;
    (destruct (nvmlInit env =? NVML_ERROR_DRIVER_NOT_LOADED);
     [|destruct (nvmlInit env =? NVML_ERROR_NO_PERMISSION);
       [|destruct (nvmlInit env =? NVML_ERROR_UNKNOWN)]]);
    follow_statuses;
    try (pose proof (init_loop_events
                       (resize (Z.to_nat (to_unsigned (snd (nvmlDeviceGetCount env)))) [])
                       0) as Hev;
         destruct (init_loop env 0 _) as [[u ds] t]; cbn [snd] in Hev; step_stmt);
    eexists; (split; [reflexivity|]);
    repeat (constructor; [exact I|]);
    try constructor; try (rewrite app_nil_r; assumption).
Qed.
End Construction.

(** ** DeviceManager: refresh cycles *)

Section Cycles.
Variable env : Env.

Lemma update_loop_events c ds : forall i,
  Forall refresh_event (snd (update_loop env c i ds)).
Proof.
  induction ds as [|d rest IH]; intros i; cbn [update_loop]; [constructor|].
  pose proof (GPUDevice_update_events env (mkMoment c i) d) as Hd.
  unfold eval_int.
  destruct (GPUDevice_update env (mkMoment c i) d) as [[f d1] t1].
  read_run Hd. specialize (IH (S i)).
  destruct (update_loop env c (S i) rest) as [[broke rest1] t2].
  cbn [snd] in IH.
  destruct f as [[]|code];
    match goal with |- context [negb ?b] => destruct b end;
    cbv beta iota zeta delta [snd negb];
    try apply Forall_app; auto.
Qed.

Lemma GPUDevice_update_falls_through now d :
  fst (nvmlDeviceGetMemoryInfo env now (handle d)) = NVML_SUCCESS ->
  fst (nvmlDeviceGetTemperature env now (handle d)) = NVML_SUCCESS ->
  fst (nvmlDeviceGetUtilizationRates env now (handle d)) = NVML_SUCCESS ->
  flow_of (GPUDevice_update env now d) = Next tt /\
  In (CallDevice GetUtilizationRates now NVML_SUCCESS)
     (trace_of (GPUDevice_update env now d)).
Proof. intros Hm Ht Hu. run_update; (split; [reflexivity|]); cbn; auto 10. Qed.

(** A pass in which no device fails and the caller reads 0 for every
    refresh that ended without [return]. *)
Lemma update_loop_full_pass c ds : forall i,
  (forall k d, nth_error ds k = Some d ->
     fst (nvmlDeviceGetMemoryInfo env (mkMoment c (i + k)) (handle d)) = NVML_SUCCESS /\
     fst (nvmlDeviceGetTemperature env (mkMoment c (i + k)) (handle d)) = NVML_SUCCESS /\
     fst (nvmlDeviceGetUtilizationRates env (mkMoment c (i + k)) (handle d)) = NVML_SUCCESS /\
     indeterminate env (mkMoment c (i + k)) = 0) ->
  let r := update_loop env c i ds in
  fst (fst r) = false /\
  forall k, (k < List.length ds)%nat ->
    In (CallDevice GetUtilizationRates (mkMoment c (i + k)) NVML_SUCCESS) (snd r).
Proof.
  induction ds as [|d rest IH]; intros i H; cbn [update_loop].
  - split; [reflexivity|]. cbn. intros k Hk. lia.
  - destruct (H 0%nat d eq_refl) as (Hm & Ht & Hu & Hj).
    rewrite Nat.add_0_r in Hm, Ht, Hu, Hj.
    destruct (GPUDevice_update_falls_through (mkMoment c i) d Hm Ht Hu) as [Hf Htr].
    unfold eval_int.
    destruct (GPUDevice_update env (mkMoment c i) d) as [[f d1] t1].
    read_run Hf. read_run Htr. subst f. rewrite Hj. cbn [Z.eqb negb].
    specialize (IH (S i)).
    destruct IH as [IH1 IH2].
    { intros k d' Hk. rewrite Nat.add_succ_l, <- Nat.add_succ_r. now apply (H (S k)). }
    destruct (update_loop env c (S i) rest) as [[broke rest1] t2].
    cbn [fst snd] in *. split; [assumption|].
    intros [|k] Hk.
    + rewrite Nat.add_0_r. apply in_or_app. left. exact Htr.
    + rewrite Nat.add_succ_r, <- Nat.add_succ_l. apply in_or_app. right.
      apply IH2. cbn in Hk. lia.
Qed.

(** X13: an invalid registry stays invalid: no refresh cycle sets [valid]
    again, and every [DeviceManager::update] on it returns 1. *)
Theorem invalid_is_terminal n devMan :
  valid devMan = false ->
  valid (refreshed env n devMan) = false /\
  forall c, flow_of (DeviceManager_update env c devMan) = Return 1.
Proof.
  intros Hv. split.
  - induction n as [|n IH]; cbn [refreshed]; [assumption|].
    rewrite DeviceManager_update_run. cbn [obj_of valid]. rewrite IH.
    now destruct (fst (fst _)).
  - intros c. rewrite DeviceManager_update_run. cbn [flow_of]. rewrite Hv.
    now destruct (fst (fst _)).
Qed.

(** X14: a refresh cycle changes neither the driver version nor the
    device count nor the number of devices in the registry. *)
Theorem update_keeps_shape c devMan :
  let devMan' := obj_of (DeviceManager_update env c devMan) in
  driverVersion devMan' = driverVersion devMan /\
  numDevices devMan' = numDevices devMan /\
  List.length (devices devMan') = List.length (devices devMan).
Proof.
  cbv zeta. rewrite DeviceManager_update_run.
  cbn [obj_of driverVersion numDevices devices].
  repeat split. symmetry.
  exact (Forall2_length (update_loop_frame env c (devices devMan) 0)).
Qed.

(** X15: when, for every device, the memory, temperature and utilization
    queries of a cycle succeed and the caller reads 0 for the refresh
    that ended without [return], the cycle refreshes every device up to
    its last query and leaves [valid] as it was. *)
Theorem full_pass c devMan :
  (forall k d, nth_error (devices devMan) k = Some d ->
     fst (nvmlDeviceGetMemoryInfo env (mkMoment c k) (handle d)) = NVML_SUCCESS /\
     fst (nvmlDeviceGetTemperature env (mkMoment c k) (handle d)) = NVML_SUCCESS /\
     fst (nvmlDeviceGetUtilizationRates env (mkMoment c k) (handle d)) = NVML_SUCCESS /\
     indeterminate env (mkMoment c k) = 0) ->
  let r := DeviceManager_update env c devMan in
  valid (obj_of r) = valid devMan /\
  forall k, (k < List.length (devices devMan))%nat ->
    In (CallDevice GetUtilizationRates (mkMoment c k) NVML_SUCCESS) (trace_of r).
Proof.
  intros H. cbv zeta. rewrite DeviceManager_update_run.
  destruct (update_loop_full_pass c (devices devMan) 0 H) as [Hb Hq].
  cbn [obj_of trace_of valid]. rewrite Hb. split; [reflexivity|exact Hq].
Qed.
End Cycles.

(** ** The process *)

Section Process.
Variable env : Env.

Lemma all_printf_refresh t : all_printf t -> Forall refresh_event t.
Proof.
  intros H. eapply Forall_impl; [|exact H]. intros [] He; try discriminate. exact I.
Qed.

Lemma main_loop_events fuel : forall c devMan,
  Forall refresh_event (snd (main_loop env fuel c devMan)).
Proof.
  induction fuel as [|fuel IH]; intros c devMan; cbn [main_loop]; unfold isValid.
  - destruct (valid devMan); constructor.
  - destruct (valid devMan); [|constructor].
    destruct (main_turn_run env c devMan) as [cursor ->].
    specialize (IH (S c) (obj_of (DeviceManager_update env c devMan))).
    destruct (main_loop env fuel (S c) _) as [[done devMan2] t2].
    cbn [snd] in *. apply Forall_app. split; [|assumption].
    constructor; [exact I|]. constructor; [exact I|].
    apply Forall_app. split.
    + apply all_printf_refresh. exact (proj2 (DeviceManager_print_run EmptyString devMan)).
    + constructor; [exact I|]. rewrite DeviceManager_update_run. cbn [trace_of].
      apply update_loop_events.
Qed.

(** X16: once the registry is constructed, the program only prints,
    sleeps, asks for the five metrics and shuts the subsystem down: it
    never initializes the subsystem again and never asks again for the
    driver version, the device count, a handle, a name or a driver
    model. *)
Theorem after_construction_only_metrics fuel :
  exists rest,
    trace_of (main env fuel) = snd (DeviceManager_new env) ++ rest /\
    Forall refresh_event rest.
Proof.
  unfold main, DeviceManager_delete, emit.
  destruct (DeviceManager_new env) as [devMan t0].
  pose proof (main_loop_events fuel 1 devMan) as H.
  destruct (main_loop env fuel 1 devMan) as [[done devMan1] t1].
  cbn [snd] in H.
  destruct done; cbn [trace_of snd]; eexists; (split; [reflexivity|]); auto.
  apply Forall_app. split; [assumption|]. repeat constructor.
Qed.

Lemma main_loop_without_devices fuel : forall c devMan,
  devices devMan = [] -> valid devMan = true ->
  let r := main_loop env fuel c devMan in
  fst (fst r) = false /\ snd (fst r) = devMan /\
  count is_shutdown (snd r) = 0%nat /\ count is_printf (snd r) = (8 * fuel)%nat.
Proof.
  induction fuel as [|fuel IH]; intros c devMan Hd Hv; cbn [main_loop]; unfold isValid;
    rewrite Hv.
  - repeat split.
  - destruct (main_turn_run env c devMan) as [cursor ->].
    rewrite DeviceManager_update_run. rewrite Hd, Hv. cbn [update_loop fst snd obj_of trace_of].
    assert (Heta : {| driverVersion := driverVersion devMan;
                      numDevices := numDevices devMan;
                      devices := []; valid := true |} = devMan)
      by (destruct devMan; cbn in *; congruence).
    rewrite Heta. specialize (IH (S c) devMan Hd Hv).
    destruct (main_loop env fuel (S c) devMan) as [[done devMan2] t2].
    cbn [fst snd] in *. destruct IH as (-> & -> & IHs & IHp).
    assert (Ht : table devMan = tl (trace_of (DeviceManager_print EmptyString devMan)))
      by reflexivity.
    assert (Hp : count is_printf (table devMan) = 6%nat /\
                 count is_shutdown (table devMan) = 0%nat).
    { rewrite Ht. unfold DeviceManager_print. step_stmt. rewrite Hd.
      cbn [for_each]. step_stmt. split; reflexivity. }
    destruct Hp as [Hp1 Hp2].
    repeat split.
    + repeat first [rewrite count_app | rewrite count_cons | rewrite count_nil].
      rewrite Hp2, IHs. reflexivity.
    + repeat first [rewrite count_app | rewrite count_cons | rewrite count_nil].
      rewrite Hp1, IHp. cbn [is_printf]. lia.
Qed.

(** X17: when [nvmlInit] fails, [main] never returns: after any number of
    turns the loop is still running on a valid registry without devices,
    it has drawn a frame of eight [printf] calls in every turn, and it
    has never shut the subsystem down. *)
Theorem no_exit_when_init_fails fuel :
  nvmlInit env <> NVML_SUCCESS ->
  let r := main env fuel in
  fst (fst r) = None /\
  valid (snd (fst r)) = true /\ devices (snd (fst r)) = [] /\
  count is_shutdown (trace_of r) = 0%nat /\
  (8 * fuel <= count is_printf (trace_of r))%nat.
Proof.
  intros Hi.
  assert (Hnew : exists t, DeviceManager_new env =
                   (mkDeviceManager "Unknown" 0 [] true, t) /\
                   count is_shutdown t = 0%nat).
  { apply Z.eqb_neq in Hi.
    unfold DeviceManager_new, DeviceManager_init. step_stmt. rewrite Hi.
    destruct (nvmlInit env =? NVML_ERROR_DRIVER_NOT_LOADED);
      [|destruct (nvmlInit env =? NVML_ERROR_NO_PERMISSION);
        [|destruct (nvmlInit env =? NVML_ERROR_UNKNOWN)]];
      step_stmt; eexists; split; reflexivity. }
  destruct Hnew as (t0 & Hnew & Hs0).
  unfold main. rewrite Hnew.
  pose proof (main_loop_without_devices fuel 1 (mkDeviceManager "Unknown" 0 [] true)
                eq_refl eq_refl) as H.
  destruct (main_loop env fuel 1 _) as [[done devMan1] t1].
  cbn [fst snd] in H. destruct H as (-> & -> & Hs & Hp).
  cbn [fst snd trace_of valid devices]. repeat split.
  - rewrite count_app, Hs0, Hs. reflexivity.
  - rewrite count_app, Hp. lia.
Qed.

(** X18: when [nvmlInit] succeeds and the driver version or the device
    count cannot be read, [main] draws nothing: whatever the bound on
    the turns, it returns 0 at once, and the run consists of the
    constructor followed by the shutdown of the destructor, the second
    shutdown of the run. *)
Theorem exit_at_once fuel :
  nvmlInit env = NVML_SUCCESS ->
  fst (nvmlSystemGetDriverVersion env) <> NVML_SUCCESS \/
  fst (nvmlDeviceGetCount env) <> NVML_SUCCESS ->
  let r := main env fuel in
  fst (fst r) = Some 0 /\
  trace_of r = snd (DeviceManager_new env) ++ [CallShutdown] /\
  count is_shutdown (trace_of r) = 2%nat.
Proof.
  intros Hi Hq.
  assert (Hnew : valid (fst (DeviceManager_new env)) = false /\
                 count is_shutdown (snd (DeviceManager_new env)) = 1%nat).
  { unfold DeviceManager_new, DeviceManager_init. step_stmt. rewrite Hi.
    change (NVML_SUCCESS =? NVML_ERROR_DRIVER_NOT_LOADED) with false.
    change (NVML_SUCCESS =? NVML_ERROR_NO_PERMISSION) with false.
    change (NVML_SUCCESS =? NVML_ERROR_UNKNOWN) with false.
    follow_statuses;
      try (split; [|reflexivity];
           match goal with
           | |- context [0 =? ?x] => replace (0 =? x) with false
               by (symmetry; rewrite Z.eqb_sym; assumption)
           end; reflexivity).
    read_statuses. destruct Hq; contradiction. }
  destruct Hnew as [Hv Hs].
  unfold main, DeviceManager_delete, emit.
  destruct (DeviceManager_new env) as [devMan t0]. cbn [fst snd] in Hv, Hs.
  assert (Hloop : main_loop env fuel 1 devMan = (true, devMan, [])).
  { destruct fuel; cbn [main_loop]; unfold isValid; rewrite Hv; reflexivity. }
  rewrite Hloop. cbn [fst snd trace_of app]. repeat split.
  rewrite count_app, Hs. reflexivity.
Qed.
End Process.

(** ** Rendering *)

Lemma for_each_print_lines ds :
  count is_printf (snd (for_each GPUDevice_print ds)) = List.length ds.
Proof.
  induction ds as [|d rest IH]; cbn [for_each]; [reflexivity|].
  destruct (GPUDevice_print_run d) as [line ->].
  destruct (for_each GPUDevice_print rest) as [rest1 t2].
  cbn [snd] in *. cbn [app]. rewrite count_cons, IH. reflexivity.
Qed.

(** X19: a frame is made of one [printf] for the time stamp, five for
    the header, one for each device and one for the closing rule. *)
Theorem frame_height hrTime devMan :
  count is_printf (trace_of (DeviceManager_print hrTime devMan)) =
    (7 + List.length (devices devMan))%nat.
Proof.
  unfold DeviceManager_print. step_stmt.
  pose proof (for_each_print_lines (devices devMan)) as H.
  destruct (for_each GPUDevice_print (devices devMan)) as [ds t].
  cbn [snd] in H. step_stmt.
  repeat first [rewrite count_app | rewrite count_cons | rewrite count_nil].
  rewrite H. cbn [is_printf]. lia.
Qed.

(** ** The width of a device line *)

Lemma fits_from_spec width n : forall v,
  fits_from width v n = true ->
  forall x, v <= x < v + Z.of_nat n -> (String.length (fmt_d x) <= width)%nat.
Proof.
  induction n as [|n IH]; cbn [fits_from]; intros v H x Hx; [lia|].
  destruct (String.length (fmt_d v) <=? width)%nat eqn:E; [|discriminate].
  destruct (Z.eq_dec x v) as [->|Hne]; [now apply Nat.leb_le|].
  apply (IH (v + 1)); [assumption|lia].
Qed.

Lemma two_digits x : 0 <= x < 100 -> (String.length (fmt_d x) <= 2)%nat.
Proof.
  apply (fits_from_spec 2 (Z.to_nat 100) 0). vm_compute. reflexivity.
Qed.

Lemma three_digits x : 0 <= x < 1000 -> (String.length (fmt_d x) <= 3)%nat.
Proof.
  apply (fits_from_spec 3 (Z.to_nat 1000) 0). vm_compute. reflexivity.
Qed.

Lemma five_digits x : 0 <= x < 100000 -> (String.length (fmt_d x) <= 5)%nat.
Proof.
  apply (fits_from_spec 5 (Z.to_nat 100000) 0). vm_compute. reflexivity.
Qed.

Lemma length_fmt_wd width v :
  (String.length (fmt_d v) <= width)%nat -> String.length (fmt_wd width v) = width.
Proof.
  intros H. unfold fmt_wd. cbv zeta. rewrite length_append, length_spaces. lia.
Qed.

Lemma length_cat parts :
  String.length (cat parts) = fold_right (fun s n => (String.length s + n)%nat) 0%nat parts.
Proof.
  unfold cat. induction parts as [|a rest IH]; [reflexivity|].
  cbn [fold_right]. rewrite <- IH. destruct rest as [|b rest].
  - cbn. lia.
  - cbn [String.concat]. rewrite length_append. reflexivity.
Qed.

Lemma length_substring s : forall n,
  String.length (String.substring 0 n s) = Nat.min n (String.length s).
Proof.
  induction s as [|ch s IH]; intros [|n]; cbn; try reflexivity. now rewrite IH.
Qed.

(** The text of the fan and power columns has five characters, for a
    reading below 1000 and for the sentinel. *)
Lemma length_gauge v (unit : string) :
  String.length unit = 1%nat ->
  0 <= v < 1000 \/ v = 2 ^ 32 - 1 ->
  String.length
    (if negb (v =? to_unsigned (-1))
     then snprintf 10 (cat [" "%string; fmt_wd 3 v; unit])
     else snprintf 10 " N/A "%string) = 5%nat.
Proof.
  intros Hu [Hv| ->].
  - replace (v =? to_unsigned (-1)) with false
      by (symmetry; apply Z.eqb_neq; vm_compute (to_unsigned (-1)); lia).
    cbn [negb]. unfold snprintf. rewrite length_substring, length_cat.
    cbn [fold_right]. rewrite (length_fmt_wd 3 v (three_digits v Hv)), Hu. reflexivity.
  - reflexivity.
Qed.

(** X20: the line [print] writes for a device whose name has been
    assigned (it is not empty) is 57 characters, the name and a newline,
    so a device whose name has the 22 characters of the name column
    fills the 79 columns of the table, provided every number fits its
    column: index below 100, memory below 100000 MiB, temperature and
    utilization below 1000, fan speed and power below 1000 or
    unavailable. *)
Theorem line_width d :
  name d <> EmptyString ->
  0 <= index d < 100 ->
  0 <= used (memory d) < 100000 * (1024 * 1024) ->
  0 <= total (memory d) < 100000 * (1024 * 1024) ->
  0 <= temperature d < 1000 ->
  0 <= fanSpeed d < 1000 \/ fanSpeed d = 2 ^ 32 - 1 ->
  0 <= power d < 1000 \/ power d = 2 ^ 32 - 1 ->
  0 <= gpu (utilization d) < 1000 ->
  String.length (stdout (trace_of (GPUDevice_print d))) =
    (58 + String.length (name d))%nat.
Proof.
  intros _ Hi Hu Ht Hc Hf Hp Hg.
  cbv beta iota zeta delta
    [GPUDevice_print bind get printf emit trace_of app stdout].
  rewrite append_empty, length_cat. cbn [fold_right].
  rewrite (length_gauge _ "%" eq_refl Hf), (length_gauge _ "W" eq_refl Hp).
  rewrite (length_fmt_wd 2 _ (two_digits _ Hi)).
  rewrite (length_fmt_wd 3 _ (three_digits _ Hc)).
  rewrite (length_fmt_wd 3 _ (three_digits _ Hg)).
  rewrite (length_fmt_wd 5 (used (memory d) / (1024 * 1024))),
          (length_fmt_wd 5 (total (memory d) / (1024 * 1024))).
  - destruct (dmCurrent d); cbn [String.length nl]; lia.
  - apply five_digits. split; [apply Z.div_pos; lia|apply Z.div_lt_upper_bound; lia].
  - apply five_digits. split; [apply Z.div_pos; lia|apply Z.div_lt_upper_bound; lia].
Qed.

(** ** The further properties on the sample environments *)

(** X2 on the first device of the healthy machine. *)
Lemma update_queries_in_order_witness :
  List.length
    (filter is_query
       (trace_of (GPUDevice_update Samples.healthy (mkMoment 1 0) Samples.gpu0)))
    = 5%nat.
Proof.
  rewrite (update_queries_in_order Samples.healthy (mkMoment 1 0) Samples.gpu0
             eq_refl eq_refl eq_refl).
  reflexivity.
Defined.

(** X3 on the machine whose memory cannot be read. *)
Lemma memory_failure_stops_refresh_witness :
  fst (nvmlDeviceGetMemoryInfo Samples.no_memory (mkMoment 1 0) (handle Samples.gpu0))
    <> NVML_SUCCESS /\
  flow_of (GPUDevice_update Samples.no_memory (mkMoment 1 0) Samples.gpu0)
    = Return NVML_ERROR_UNKNOWN.
Proof.
  assert (H : fst (nvmlDeviceGetMemoryInfo Samples.no_memory (mkMoment 1 0)
                     (handle Samples.gpu0)) <> NVML_SUCCESS)
    by (vm_compute; discriminate).
  split; [exact H|].
  exact (proj1 (memory_failure_stops_refresh Samples.no_memory (mkMoment 1 0)
                  Samples.gpu0 H)).
Defined.

(** X4 on the machine without power sensors. *)
Lemma power_failure_sentinel_witness :
  fst (nvmlDeviceGetPowerUsage Samples.no_power (mkMoment 1 0) (handle Samples.gpu0))
    <> NVML_SUCCESS /\
  power (obj_of (GPUDevice_update Samples.no_power (mkMoment 1 0) Samples.gpu0))
    = 2 ^ 32 - 1.
Proof.
  assert (H : fst (nvmlDeviceGetPowerUsage Samples.no_power (mkMoment 1 0)
                     (handle Samples.gpu0)) <> NVML_SUCCESS)
    by (vm_compute; discriminate).
  split; [exact H|].
  exact (proj1 (power_failure_sentinel Samples.no_power (mkMoment 1 0)
                  Samples.gpu0 eq_refl H)).
Defined.

(** X5 on the first device of the healthy machine. *)
Lemma successful_refresh_stores_answers_witness :
  temperature (obj_of (GPUDevice_update Samples.healthy (mkMoment 1 0) Samples.gpu0))
    = 65.
Proof.
  rewrite (successful_refresh_stores_answers Samples.healthy (mkMoment 1 0)
             Samples.gpu0 eq_refl eq_refl eq_refl eq_refl eq_refl).
  reflexivity.
Defined.

(** X6 on the device whose handle cannot be resolved. *)
Lemma init_handle_failure_witness :
  fst (nvmlDeviceGetHandleByIndex Samples.lost_device (mkMoment 0 1)
         (index (set_index 1 GPUDevice_new))) <> NVML_SUCCESS /\
  obj_of (GPUDevice_init Samples.lost_device (mkMoment 0 1) (set_index 1 GPUDevice_new))
    = set_index 1 GPUDevice_new.
Proof.
  assert (H : fst (nvmlDeviceGetHandleByIndex Samples.lost_device (mkMoment 0 1)
                     (index (set_index 1 GPUDevice_new))) <> NVML_SUCCESS)
    by (vm_compute; discriminate).
  split; [exact H|].
  rewrite (init_handle_failure Samples.lost_device (mkMoment 0 1)
             (set_index 1 GPUDevice_new) H).
  reflexivity.
Defined.

(** X7 on the machine whose devices have no name. *)
Lemma init_name_failure_witness :
  fst (nvmlDeviceGetName Samples.no_name (mkMoment 0 0) 4096) <> NVML_SUCCESS /\
  obj_of (GPUDevice_init Samples.no_name (mkMoment 0 0) GPUDevice_new)
    = set_handle 4096 GPUDevice_new.
Proof.
  assert (H : fst (nvmlDeviceGetName Samples.no_name (mkMoment 0 0) 4096)
              <> NVML_SUCCESS)
    by (vm_compute; discriminate).
  split; [exact H|].
  rewrite (init_name_failure Samples.no_name (mkMoment 0 0) GPUDevice_new 4096
             eq_refl H).
  reflexivity.
Defined.

(** X8 on the platform without driver models: the fields stay zeroed. *)
Lemma driver_model_failure_not_fatal_witness :
  fst (nvmlDeviceGetDriverModel Samples.no_driver_model (mkMoment 0 0) 4096)
    <> NVML_SUCCESS /\
  dmCurrent (obj_of (GPUDevice_init Samples.no_driver_model (mkMoment 0 0) GPUDevice_new))
    = NVML_DRIVER_WDDM.
Proof.
  assert (H : fst (nvmlDeviceGetDriverModel Samples.no_driver_model (mkMoment 0 0) 4096)
              <> NVML_SUCCESS)
    by (vm_compute; discriminate).
  split; [exact H|].
  exact (proj1 (driver_model_failure_not_fatal Samples.no_driver_model (mkMoment 0 0)
                  GPUDevice_new 4096 eq_refl eq_refl H)).
Defined.

(** X9 on the first device of the healthy machine. *)
Lemma init_stores_identity_witness :
  handle (obj_of (GPUDevice_init Samples.healthy (mkMoment 0 0) GPUDevice_new)) = 4096.
Proof.
  exact (proj1 (proj2 (init_stores_identity Samples.healthy (mkMoment 0 0)
                         GPUDevice_new 4096 NVML_DRIVER_WDDM NVML_DRIVER_WDDM
                         eq_refl eq_refl eq_refl))).
Defined.

(** X10 on the machine whose second device cannot be resolved: its
    handle is asked for all the same. *)
Lemma enumeration_visits_every_slot_witness :
  Z.of_nat 1 < numDevices (fst (DeviceManager_new Samples.lost_device)) /\
  exists res,
    In (CallDevice GetHandleByIndex (mkMoment 0 1) res)
       (snd (DeviceManager_new Samples.lost_device)).
Proof.
  assert (H : Z.of_nat 1 < numDevices (fst (DeviceManager_new Samples.lost_device)))
    by (vm_compute; reflexivity).
  split; [exact H|].
  exact (enumeration_visits_every_slot Samples.lost_device 1 eq_refl eq_refl eq_refl H).
Defined.

(** X13 on the registry a failed temperature query has invalidated. *)
Lemma invalid_is_terminal_witness :
  let devMan := obj_of (DeviceManager_update Samples.hot 2 Samples.registry) in
  valid devMan = false /\ valid (refreshed Samples.healthy 3 devMan) = false.
Proof.
  cbv zeta.
  assert (H : valid (obj_of (DeviceManager_update Samples.hot 2 Samples.registry))
              = false)
    by (vm_compute; reflexivity).
  split; [exact H|].
  exact (proj1 (invalid_is_terminal Samples.healthy 3 _ H)).
Defined.

(** X15 on the healthy machine, where 0 is read for the missing return. *)
Lemma full_pass_witness :
  valid (obj_of (DeviceManager_update Samples.healthy 1 Samples.registry)) = true.
Proof.
  refine (proj1 (full_pass Samples.healthy 1 Samples.registry _)).
  intros k d _. repeat split; reflexivity.
Defined.

(** X17 on the machine whose driver is not running. *)
Lemma no_exit_when_init_fails_witness :
  nvmlInit Samples.no_driver <> NVML_SUCCESS /\
  fst (fst (main Samples.no_driver 3)) = None.
Proof.
  assert (H : nvmlInit Samples.no_driver <> NVML_SUCCESS)
    by (vm_compute; discriminate).
  split; [exact H|].
  exact (proj1 (no_exit_when_init_fails Samples.no_driver 3 H)).
Defined.

(** X18 on the machine whose driver version cannot be read. *)
Lemma exit_at_once_witness :
  fst (nvmlSystemGetDriverVersion Samples.no_version) <> NVML_SUCCESS /\
  fst (fst (main Samples.no_version 5)) = Some 0.
Proof.
  assert (H : fst (nvmlSystemGetDriverVersion Samples.no_version) <> NVML_SUCCESS)
    by (vm_compute; discriminate).
  split; [exact H|].
  exact (proj1 (exit_at_once Samples.no_version 5 eq_refl (or_introl H))).
Defined.

(** X20 on the first device of the healthy machine: 80 characters. *)
Lemma line_width_witness :
  name Samples.gpu0 <> EmptyString /\
  String.length (stdout (trace_of (GPUDevice_print Samples.gpu0))) = 80%nat.
Proof.
  assert (Hn : name Samples.gpu0 <> EmptyString) by (vm_compute; discriminate).
  assert (Hr : forall lo v hi, (lo <=? v) && (v <? hi) = true -> lo <= v < hi)
    by (intros lo v hi H; apply andb_prop in H; destruct H as [H1 H2];
        apply Z.leb_le in H1; apply Z.ltb_lt in H2; split; assumption).
  split; [exact Hn|].
  refine (line_width Samples.gpu0 Hn _ _ _ _ (or_introl _) (or_introl _) _);
    apply Hr; vm_compute; reflexivity.
Defined.
